(** * volta_accelerate.py: UNet -> ONNX -> TensorRT conversion script

    A shallow embedding of [volta_accelerate.py].  The script is a thin
    orchestration layer: every heavy step is a call into a third-party
    library (diffusers, torch, onnx, onnxconverter_common, tensorrt) or
    into the operating system.  Those collaborators are kept opaque (the
    class [Libs] below); what is modelled exactly is what the script itself
    does: which calls it makes, in which order, with which arguments, what
    it computes in Python between the calls, and how failures leave the
    process. *)

From Stdlib Require Import ZArith Ascii String List Lia.
From stdpp Require Import base gmap strings list.

Local Open Scope Z_scope.
Local Open Scope string_scope.

(** ** Python values and exceptions *)

(** The dynamically typed values the script manipulates: [args.img_size]
    and [args.max_seq_length] have no [type=] converter, so they are either
    their in-program default (a tuple of ints, an int) or a [str]. *)
#[warnings="-register-all"]
Inductive PyVal :=
| PyInt (z : Z)
| PyStr (s : string)
| PyTuple (l : list PyVal).

(** Argument of [sys.exit]: a message (printed to stderr, status 1) or an
    integer status (argparse's [parser.error] exits with 2). *)
Inductive exit_arg :=
| ExitMsg (msg : string)
| ExitCode (code : Z).

Inductive exn :=
| SystemExit (a : exit_arg)
| TypeError
| IndexError
| ZeroDivisionError
| RuntimeError
| OSError
| LibraryError (who : string).

Inductive result (A : Type) :=
| Ok (a : A)
| Raise (e : exn).
Arguments Ok {A} a.
Arguments Raise {A} e.

(** *** The characters of a [str]

    A [str] is held as its UTF-8 encoding, and Python indexes it by
    character (code point), not by byte.  [py_chars] splits the encoding
    into its characters: each well-formed UTF-8 sequence of one to four
    bytes is one character, and a byte that starts no well-formed sequence
    is one character of its own (as the interpreter's surrogateescape
    decoding of the command line makes it). *)

Definition byte_in (lo hi : N) (o : option ascii) : bool :=
  match o with
  | Some c => N.leb lo (N_of_ascii c) && N.leb (N_of_ascii c) hi
  | None => false
  end.

(** A continuation byte, 0x80 to 0xBF. *)
Definition utf8_cont (o : option ascii) : bool := byte_in 128 191 o.

(** The number of bytes of the first character of [String c rest]. *)
Definition utf8_width (c : ascii) (rest : string) : nat :=
  let b := Some c in
  let r0 := String.get 0 rest in
  let r1 := String.get 1 rest in
  let r2 := String.get 2 rest in
  if byte_in 0 127 b then 1%nat
  else if byte_in 194 223 b && utf8_cont r0 then 2%nat
  else if byte_in 224 224 b && byte_in 160 191 r0 && utf8_cont r1 then 3%nat
  else if (byte_in 225 236 b || byte_in 238 239 b)
          && utf8_cont r0 && utf8_cont r1 then 3%nat
  else if byte_in 237 237 b && byte_in 128 159 r0 && utf8_cont r1 then 3%nat
  else if byte_in 240 240 b && byte_in 144 191 r0
          && utf8_cont r1 && utf8_cont r2 then 4%nat
  else if byte_in 241 243 b && utf8_cont r0
          && utf8_cont r1 && utf8_cont r2 then 4%nat
  else if byte_in 244 244 b && byte_in 128 143 r0
          && utf8_cont r1 && utf8_cont r2 then 4%nat
  else 1%nat.

Fixpoint string_take (n : nat) (s : string) : string :=
  match n, s with
  | S k, String c rest => String c (string_take k rest)
  | _, _ => EmptyString
  end.

Fixpoint string_drop (n : nat) (s : string) : string :=
  match n, s with
  | S k, String _ rest => string_drop k rest
  | _, _ => s
  end.

Fixpoint py_chars_from (fuel : nat) (s : string) : list string :=
  match fuel, s with
  | S f, String c rest =>
      let n := utf8_width c rest in
      String c (string_take (n - 1) rest)
      :: py_chars_from f (string_drop (n - 1) rest)
  | _, _ => []
  end.

(** The characters of [s], in order. *)
Definition py_chars (s : string) : list string :=
  py_chars_from (String.length s) s.

(** [len(s)] *)
Definition py_len (s : string) : nat := length (py_chars s).

(** [v[i]] for a non-negative literal index [i]. *)
Definition py_getitem (v : PyVal) (i : nat) : result PyVal :=
  match v with
  | PyTuple l =>
      match nth_error l i with
      | Some x => Ok x
      | None => Raise IndexError
      end
  | PyStr s =>
      match nth_error (py_chars s) i with
      | Some c => Ok (PyStr c)
      | None => Raise IndexError
      end
  | PyInt _ => Raise TypeError
  end.

(** [a // b]: floor division on ints ([Z.div] rounds towards minus
    infinity for a positive divisor, as Python does); a [str] or tuple
    operand is a [TypeError]. *)
Definition py_floordiv (a b : PyVal) : result PyVal :=
  match a, b with
  | PyInt x, PyInt y =>
      if Z.eqb y 0 then Raise ZeroDivisionError else Ok (PyInt (x / y))
  | _, _ => Raise TypeError
  end.

(** ** Tensors, graphs and TensorRT objects (the parts the script sees) *)

Inductive dtype := Float32 | Float16 | Int64 | Bool.

Inductive tensor_data :=
| RandData (seed : N)
| IntData (l : list Z)
| BoolData (b : bool).

Record Tensor := mkTensor {
  t_shape : list Z;
  t_dtype : dtype;
  t_data : tensor_data;
  t_device : string
}.

(** A declared graph input or output: its name and element type. *)
Definition value_info : Type := string * dtype.

(** An ONNX model as far as the script is concerned: its declared inputs
    and outputs, and an opaque body. *)
Record ModelProto := mkModelProto {
  graph_input : list value_info;
  graph_output : list value_info;
  graph_body : list string
}.

Definition io_types (m : ModelProto) : list dtype * list dtype :=
  (map snd (graph_input m), map snd (graph_output m)).

(** A file is either a well-formed serialized graph or raw bytes. *)
Inductive file :=
| OnnxFile (m : ModelProto)
| BinFile (b : list Z).

Record ExportOptions := mkExportOptions {
  export_params : bool;
  opset_version : Z;
  do_constant_folding : bool;
  input_names : list string;
  output_names : list string;
  dynamic_axes : list (string * list Z)
}.

Inductive BuilderFlag := FP16.
Inductive MemoryPoolType := WORKSPACE.

(** One [set_shape] binding of an optimization profile. *)
Record ShapeBinding := mkShapeBinding {
  sb_input : string;
  sb_min : list Z;
  sb_opt : list Z;
  sb_max : list Z
}.

Definition OptimizationProfile : Type := list ShapeBinding.

Record BuilderConfig := mkBuilderConfig {
  cfg_profiles : list OptimizationProfile;
  cfg_pool_limits : list (MemoryPoolType * Z);
  cfg_flags : list BuilderFlag
}.

(** [trt.NetworkDefinitionCreationFlag.EXPLICIT_BATCH] (TensorRT's enum
    value). *)
Definition EXPLICIT_BATCH : Z := 0.

(** ** The process state *)

(** Collaborator calls, in the order the script makes them. *)
Inductive call :=
| call_cuda_is_available
| call_from_pretrained (model_path subfolder : string) (use_auth_token : bool)
| call_to_device (device : string)
| call_path_exists (path : string)
| call_makedirs (path : string)
| call_jit_trace (example : list Tensor) (check_inputs : list (list Tensor))
    (strict : bool)
| call_onnx_export (example : list Tensor) (path : string)
    (opts : ExportOptions)
| call_convert_float_to_float16_model_path (path : string)
    (keep_io_types : bool)
| call_onnx_save (path : string)
| call_empty_cache
| call_gc_collect
| call_create_network (flags : Z)
| call_parse_from_file (path : string)
| call_set_shape (input : string) (min opt max : list PyVal)
| call_add_optimization_profile (p : OptimizationProfile)
| call_set_memory_pool_limit (pool : MemoryPoolType) (bytes : Z)
| call_set_flag (f : BuilderFlag)
| call_build_serialized_network (cfg : BuilderConfig)
| call_open_wb (path : string)
| call_file_write.

Record World := mkWorld {
  files : gmap string file;
  dirs : gset string;
  rng : N;
  stdout : list string;
  stderr : list string;
  calls : list call
}.

(** State and exception monad of the script. *)
Definition M (A : Type) : Type := World -> result A * World.

Definition ret {A} (a : A) : M A := fun w => (Ok a, w).

Definition raise {A} (e : exn) : M A := fun w => (Raise e, w).

Definition bind {A B} (m : M A) (k : A -> M B) : M B :=
  fun w =>
    match m w with
    | (Ok a, w') => k a w'
    | (Raise e, w') => (Raise e, w')
    end.

Definition lift {A} (r : result A) : M A := fun w => (r, w).

Declare Scope py_scope.
Delimit Scope py_scope with py.
Notation "x <- m ;; k" := (bind m (fun x => k))
  (at level 200, m at level 99, k at level 200, right associativity,
   only parsing) : py_scope.
Notation "m ;;; k" := (bind m (fun _ => k))
  (at level 200, k at level 200, right associativity,
   only parsing) : py_scope.
Local Open Scope py_scope.

Definition invoke (c : call) : M unit :=
  fun w => (Ok tt, mkWorld (files w) (dirs w) (rng w) (stdout w) (stderr w)
                     (calls w ++ [c])).

(** [print(x)]: one line on standard output. *)
Definition print (line : string) : M unit :=
  fun w => (Ok tt, mkWorld (files w) (dirs w) (rng w) (stdout w ++ [line])
                     (stderr w) (calls w)).

Definition eprint (line : string) : M unit :=
  fun w => (Ok tt, mkWorld (files w) (dirs w) (rng w) (stdout w)
                     (stderr w ++ [line]) (calls w)).

(** [sys.stdout.flush()]: the lines already printed are unchanged. *)
Definition stdout_flush : M unit := ret tt.

(** [sys.exit(arg)] raises [SystemExit]. *)
Definition sys_exit {A} (a : exit_arg) : M A := raise (SystemExit a).

(** Paths: a leading "./" names the same file. *)
Fixpoint normpath (p : string) : string :=
  match p with
  | String "."%char (String "/"%char rest) => normpath rest
  | _ => p
  end.

(** What becomes of the bytes handed to an open file: all of them reach
    the file, or the operating system fails the write (or the flush when
    the file is closed) after [partial] of them have. *)
Inductive written :=
| AllWritten
| WriteFailed (partial : list Z).

(** ** Collaborators

    Everything the script calls but does not implement.  Each field is the
    input/output behaviour of one library entry point (or of the operating
    system) during the run; [None] stands for "the call raises". *)
Class Libs := {
  UNet : Type;
  ScriptModule : Type;
  INetworkDefinition : Type;
  (* Python builtin [int] applied to a [str] ([type=int] of argparse) *)
  py_int : string -> option Z;
  (* operating system *)
  os_makedirs_ok : gmap string file -> gset string -> string -> bool;
  os_open_wb_ok : gmap string file -> gset string -> string -> bool;
  os_write : gmap string file -> gset string -> string -> list Z -> written;
  (* torch, diffusers *)
  cuda_is_available : bool;
  from_pretrained : string -> string -> bool -> option UNet;
  module_to : UNet -> string -> option UNet;
  jit_trace :
    UNet -> list Tensor -> list (list Tensor) -> bool -> option ScriptModule;
  onnx_export :
    ScriptModule -> list Tensor -> ExportOptions -> option ModelProto;
  (* onnxconverter_common *)
  convert_float_to_float16 : ModelProto -> bool -> option ModelProto;
  (* tensorrt *)
  create_network : Z -> INetworkDefinition;
  parse :
    INetworkDefinition -> option file ->
    bool * list string * INetworkDefinition;
  set_dimensions_ok : string -> list Z -> list Z -> list Z -> bool;
  build_serialized_network :
    INetworkDefinition -> BuilderConfig -> option (list Z)
}.

Definition set_files (f : gmap string file) (w : World) : World :=
  mkWorld f (dirs w) (rng w) (stdout w) (stderr w) (calls w).

Definition set_dirs (d : gset string) (w : World) : World :=
  mkWorld (files w) d (rng w) (stdout w) (stderr w) (calls w).

Definition set_rng (r : N) (w : World) : World :=
  mkWorld (files w) (dirs w) r (stdout w) (stderr w) (calls w).

Definition of_option {A} (who : string) (o : option A) : M A :=
  match o with
  | Some a => ret a
  | None => raise (LibraryError who)
  end.

Fixpoint as_ints (l : list PyVal) : option (list Z) :=
  match l with
  | [] => Some []
  | PyInt z :: rest =>
      match as_ints rest with
      | Some zs => Some (z :: zs)
      | None => None
      end
  | _ :: _ => None
  end.

Section Script.
Context {L : Libs}.

(** *** File system primitives *)

(** [os.path.exists(p)] *)
Definition os_path_exists (p : string) : M bool :=
  invoke (call_path_exists p);;;
  fun w =>
    (Ok (bool_decide (normpath p ∈ dirs w)
         || bool_decide (is_Some (files w !! normpath p))), w).

(** [os.makedirs(p)] *)
Definition os_makedirs (p : string) : M unit :=
  invoke (call_makedirs p);;;
  fun w =>
    if os_makedirs_ok (files w) (dirs w) p
    then (Ok tt, set_dirs ({[normpath p]} ∪ dirs w) w)
    else (Raise OSError, w).

(** Creating or replacing the file at [p] with [content], as the library
    writers ([torch.onnx.export], [onnx.save]) do. *)
Definition write_file (p : string) (content : file) : M unit :=
  fun w =>
    if os_open_wb_ok (files w) (dirs w) p
    then (Ok tt, set_files (<[normpath p := content]> (files w)) w)
    else (Raise OSError, w).

(** [open(p, "wb")]: creates the file or truncates it to zero length. *)
Definition open_wb (p : string) : M unit :=
  invoke (call_open_wb p);;;
  write_file p (BinFile []).

(** [f.write(data)] on the file opened at [p], up to the close of the
    [with] block; [data] is [None] when the build step returned no engine,
    and writing [None] is a [TypeError].  Writing bytes can fail in the
    operating system, leaving what had been written. *)
Definition file_write (p : string) (data : option (list Z)) : M unit :=
  invoke call_file_write;;;
  match data with
  | None => raise TypeError
  | Some b =>
      fun w =>
        let old :=
          match files w !! normpath p with
          | Some (BinFile o) => o
          | _ => []
          end in
        match os_write (files w) (dirs w) p b with
        | AllWritten =>
            (Ok tt,
             set_files (<[normpath p := BinFile (old ++ b)]> (files w)) w)
        | WriteFailed partial =>
            (Raise OSError,
             set_files (<[normpath p := BinFile (old ++ partial)]> (files w))
               w)
        end
  end.

(** *** torch *)

(** [torch.rand(d1, ..., dn, device=device)] *)
Definition torch_rand (size : list PyVal) (device : string) : M Tensor :=
  match as_ints size with
  | None => raise TypeError
  | Some dims =>
      if forallb (Z.leb 0) dims
      then fun w =>
             (Ok (mkTensor dims Float32 (RandData (rng w)) device),
              set_rng (N.succ (rng w)) w)
      else raise RuntimeError
  end.

(** [torch.tensor([v], dtype=torch.long, device=device)] *)
Definition torch_tensor_long (v : Z) (device : string) : Tensor :=
  mkTensor [1] Int64 (IntData [v]) device.

(** [torch.tensor(b, dtype=torch.bool, device=device)] *)
Definition torch_tensor_bool (b : bool) (device : string) : Tensor :=
  mkTensor [] Bool (BoolData b) device.

(** *** The run configuration ([get_args]) *)

Record Args := mkArgs {
  model_path : string;
  save_path : string;
  batch_size : Z;
  img_size : PyVal;
  max_seq_length : PyVal;
  max_gpu_memory : Z;
  onnx_trt : string
}.

(** The defaults of the seven [add_argument] calls. *)
Definition default_args : Args :=
  {| model_path := "runwayml/stable-diffusion-v1-5";
     save_path := "unet.engine";
     batch_size := 1;
     img_size := PyTuple [PyInt 512; PyInt 512];
     max_seq_length := PyInt 77;
     max_gpu_memory := 15;
     onnx_trt := "onnx" |}.

(** The options of the parser.  A command line is taken after argparse
    has recognised its options: the list, in order, of the options given
    and the raw text given for each.  The command lines covered are those
    made of these seven options, each with its value: with [-h] or
    [--help], an option the parser does not know or an option without its
    value, argparse ends the process itself (help and status 0, or usage
    and status 2), and such command lines are not represented. *)
Inductive Dest :=
| dest_model_path
| dest_save_path
| dest_batch_size
| dest_img_size
| dest_max_seq_length
| dest_max_gpu_memory
| dest_onnx_trt.

Definition cmdline : Type := list (Dest * string).

(** argparse's [parser.error]: usage on stderr, exit status 2. *)
Definition parser_error {A} (msg : string) : M A :=
  eprint msg;;; sys_exit (ExitCode 2).

(** The store action of one option: [type=str] keeps the text, [type=int]
    converts it with [int] (an error if that fails), and an option declared
    without [type=] stores the raw text as a [str]. *)
Definition store (a : Args) (d : Dest) (s : string) : M Args :=
  match d with
  | dest_model_path =>
      ret (mkArgs s (save_path a) (batch_size a) (img_size a)
             (max_seq_length a) (max_gpu_memory a) (onnx_trt a))
  | dest_save_path =>
      ret (mkArgs (model_path a) s (batch_size a) (img_size a)
             (max_seq_length a) (max_gpu_memory a) (onnx_trt a))
  | dest_batch_size =>
      match py_int s with
      | Some z =>
          ret (mkArgs (model_path a) (save_path a) z (img_size a)
                 (max_seq_length a) (max_gpu_memory a) (onnx_trt a))
      | None => parser_error "argument --batch_size: invalid int value"
      end
  | dest_img_size =>
      ret (mkArgs (model_path a) (save_path a) (batch_size a) (PyStr s)
             (max_seq_length a) (max_gpu_memory a) (onnx_trt a))
  | dest_max_seq_length =>
      ret (mkArgs (model_path a) (save_path a) (batch_size a) (img_size a)
             (PyStr s) (max_gpu_memory a) (onnx_trt a))
  | dest_max_gpu_memory =>
      match py_int s with
      | Some z =>
          ret (mkArgs (model_path a) (save_path a) (batch_size a)
                 (img_size a) (max_seq_length a) z (onnx_trt a))
      | None => parser_error "argument --max_gpu_memory: invalid int value"
      end
  | dest_onnx_trt =>
      ret (mkArgs (model_path a) (save_path a) (batch_size a) (img_size a)
             (max_seq_length a) (max_gpu_memory a) s)
  end.

Fixpoint parse_args (a : Args) (cl : cmdline) : M Args :=
  match cl with
  | [] => ret a
  | (d, s) :: rest => a' <- store a d s;; parse_args a' rest
  end.

Definition get_args (cl : cmdline) : M Args := parse_args default_args cl.

(** *** Pipeline 1: [convert_to_onnx] *)

(** Lines 59-61: [height = args.img_size[0]], [width = args.img_size[1]],
    [h, w = height // 8, width // 8]. *)
Definition sample_hw (args : Args) : result (PyVal * PyVal) :=
  match py_getitem (img_size args) 0 with
  | Raise e => Raise e
  | Ok height =>
      match py_getitem (img_size args) 1 with
      | Raise e => Raise e
      | Ok width =>
          match py_floordiv height (PyInt 8) with
          | Raise e => Raise e
          | Ok h =>
              match py_floordiv width (PyInt 8) with
              | Raise e => Raise e
              | Ok w => Ok (h, w)
              end
          end
      end
  end.

(** Lines 62-77: the two sample input tuples. *)
Definition check_inputs (args : Args) (h w : PyVal) (device : string)
  : M (list Tensor * list Tensor) :=
  x0 <- torch_rand [PyInt 2; PyInt 4; h; w] device;;
  e0 <- torch_rand [PyInt 2; max_seq_length args; PyInt 768] device;;
  x1 <- torch_rand [PyInt 2; PyInt 4; h; w] device;;
  e1 <- torch_rand [PyInt 2; PyInt 12; PyInt 768] device;;
  ret ([x0; torch_tensor_long 980 device; e0;
        torch_tensor_bool false device; torch_tensor_bool false device],
       [x1; torch_tensor_long 910 device; e1;
        torch_tensor_bool false device; torch_tensor_bool false device]).

Definition export_options : ExportOptions :=
  {| export_params := true;
     opset_version := 16;
     do_constant_folding := true;
     input_names := ["latent_model_input"; "t"; "encoder_hidden_states"];
     output_names := ["out_sample"];
     dynamic_axes := [("latent_model_input", [0]); ("t", [0]);
                      ("encoder_hidden_states", [0; 1])] |}.

(** [torch.onnx.export(model, example, path, ...)] *)
Definition torch_onnx_export (model : ScriptModule) (example : list Tensor)
    (path : string) (opts : ExportOptions) : M unit :=
  invoke (call_onnx_export example path opts);;;
  m <- of_option "torch.onnx" (onnx_export model example opts);;
  write_file path (OnnxFile m).

(** [onnxconverter_common.convert_float_to_float16_model_path(path,
    keep_io_types=k)]: loads the graph stored at [path] and converts it. *)
Definition convert_float_to_float16_model_path (path : string) (k : bool)
  : M ModelProto :=
  invoke (call_convert_float_to_float16_model_path path k);;;
  fun w =>
    match files w !! normpath path with
    | Some (OnnxFile m) =>
        of_option "onnxconverter_common" (convert_float_to_float16 m k) w
    | _ => (Raise (LibraryError "onnx"), w)
    end.

(** [onnx.save(model, path)] *)
Definition onnx_save (m : ModelProto) (path : string) : M unit :=
  invoke (call_onnx_save path);;;
  write_file path (OnnxFile m).

Definition convert_to_onnx (args : Args) : M unit :=
  invoke call_cuda_is_available;;;
  let device := if cuda_is_available then "cuda" else "cpu" in
  invoke (call_from_pretrained (model_path args) "unet" true);;;
  unet <- of_option "diffusers" (from_pretrained (model_path args) "unet" true);;
  invoke (call_to_device device);;;
  unet <- of_option "torch" (module_to unet device);;
  present <- os_path_exists "unet";;
  (if negb present then os_makedirs "unet" else ret tt);;;
  hw <- lift (sample_hw args);;
  ci <- check_inputs args (fst hw) (snd hw) device;;
  invoke (call_jit_trace (fst ci) [snd ci] true);;;
  traced_model <- of_option "torch.jit" (jit_trace unet (fst ci) [snd ci] true);;
  torch_onnx_export traced_model (fst ci) "unet/model.onnx" export_options;;;
  new_onnx_model <- convert_float_to_float16_model_path "unet/model.onnx" true;;
  onnx_save new_onnx_model "unet/model_fp16.onnx";;;
  invoke call_empty_cache;;;
  invoke call_gc_collect.

(** *** Pipeline 2: [convert_to_trt] *)

(** [onnx_parser.parse_from_file(path)]: the parser reads the file at
    [path] (or finds none), fills the network and records its errors. *)
Definition parse_from_file (network : INetworkDefinition) (path : string)
  : M (bool * list string * INetworkDefinition) :=
  invoke (call_parse_from_file path);;;
  fun w => (Ok (parse network (files w !! normpath path)), w).

(** [for idx in range(n): body(idx)] *)
Fixpoint for_range (idxs : list nat) (body : nat -> M unit) : M unit :=
  match idxs with
  | [] => ret tt
  | idx :: rest => body idx;;; for_range rest body
  end.

(** Lines 116-117: [num_errors] is the number of recorded errors and
    [get_error(idx)] the [idx]-th of them. *)
Definition print_errors (errors : list string) : M unit :=
  for_range (seq 0 (length errors))
    (fun idx => print (nth idx errors "")).

(** Lines 123-130: the three shape tuples. *)
Definition trt_shapes (args : Args)
  : result (list PyVal * list PyVal * list PyVal) :=
  match py_getitem (img_size args) 0 with
  | Raise e => Raise e
  | Ok i0 =>
      match py_floordiv i0 (PyInt 8) with
      | Raise e => Raise e
      | Ok h =>
          match py_getitem (img_size args) 1 with
          | Raise e => Raise e
          | Ok i1 =>
              match py_floordiv i1 (PyInt 8) with
              | Raise e => Raise e
              | Ok w =>
                  Ok ([PyInt (batch_size args * 2); PyInt 4; h; w],
                      [PyInt (batch_size args * 2); max_seq_length args;
                       PyInt 768],
                      [PyInt (batch_size args)])
              end
          end
      end
  end.

(** [profile.set_shape(input, min, opt, max)]: the three tuples are
    converted to TensorRT dimensions (ints only), checked by TensorRT and
    recorded; a later binding of the same input replaces an earlier one. *)
Definition set_shape (profile : OptimizationProfile) (input : string)
    (mn op mx : list PyVal) : M OptimizationProfile :=
  invoke (call_set_shape input mn op mx);;;
  match as_ints mn, as_ints op, as_ints mx with
  | Some a, Some b, Some c =>
      if set_dimensions_ok input a b c
      then ret (List.filter (fun sb => negb (String.eqb (sb_input sb) input))
                  profile ++ [mkShapeBinding input a b c])%list
      else raise RuntimeError
  | _, _, _ => raise TypeError
  end.

(** [config.add_optimization_profile(profile)] *)
Definition add_optimization_profile (config : BuilderConfig)
    (profile : OptimizationProfile) : M BuilderConfig :=
  invoke (call_add_optimization_profile profile);;;
  ret (mkBuilderConfig (cfg_profiles config ++ [profile])
         (cfg_pool_limits config) (cfg_flags config)).

(** [config.set_memory_pool_limit(pool, size)] *)
Definition set_memory_pool_limit (config : BuilderConfig)
    (pool : MemoryPoolType) (size : Z) : M BuilderConfig :=
  invoke (call_set_memory_pool_limit pool size);;;
  ret (mkBuilderConfig (cfg_profiles config)
         (cfg_pool_limits config ++ [(pool, size)]) (cfg_flags config)).

(** [config.set_flag(flag)] *)
Definition set_flag (config : BuilderConfig) (flag : BuilderFlag)
  : M BuilderConfig :=
  invoke (call_set_flag flag);;;
  ret (mkBuilderConfig (cfg_profiles config) (cfg_pool_limits config)
         (cfg_flags config ++ [flag])).

(** [create_builder_config()] and [create_optimization_profile()] *)
Definition create_builder_config : BuilderConfig := mkBuilderConfig [] [] [].
Definition create_optimization_profile : OptimizationProfile := [].

Definition convert_to_trt (args : Args) : M unit :=
  invoke (call_create_network (Z.shiftl 1 EXPLICIT_BATCH));;;
  let network := create_network (Z.shiftl 1 EXPLICIT_BATCH) in
  parsed <- parse_from_file network "./unet/model.onnx";;
  let parse_success := fst (fst parsed) in
  let errors := snd (fst parsed) in
  let network := snd parsed in
  print_errors errors;;;
  (if negb parse_success
   then sys_exit (ExitMsg "ONNX model parsing failed")
   else ret tt);;;
  let config := create_builder_config in
  let profile := create_optimization_profile in
  shapes <- lift (trt_shapes args);;
  let latents_shape := fst (fst shapes) in
  let embed_shape := snd (fst shapes) in
  let timestep_shape := snd shapes in
  profile <- set_shape profile "latent_model_input"
               latents_shape latents_shape latents_shape;;
  profile <- set_shape profile "encoder_hidden_states"
               embed_shape embed_shape embed_shape;;
  profile <- set_shape profile "t"
               timestep_shape timestep_shape timestep_shape;;
  config <- add_optimization_profile config profile;;
  config <- set_memory_pool_limit config WORKSPACE
              (Z.shiftl (max_gpu_memory args * 1) 30);;
  config <- set_flag config FP16;;
  invoke (call_build_serialized_network config);;;
  let serialized_engine := build_serialized_network network config in
  open_wb (save_path args);;;
  file_write (save_path args) serialized_engine;;;
  print ("Engine is saved to " ++ save_path args).

(** *** The entry point *)

(** Lines 151-156, for an already parsed configuration. *)
Definition main_body (args : Args) : M unit :=
  (if String.eqb (onnx_trt args) "onnx" then convert_to_onnx args
   else ret tt);;;
  stdout_flush;;;
  (if String.eqb (onnx_trt args) "trt" then convert_to_trt args
   else ret tt).

Definition main (cl : cmdline) : M unit :=
  args <- get_args cl;;
  main_body args.

Definition exn_name (e : exn) : string :=
  match e with
  | SystemExit _ => "SystemExit"
  | TypeError => "TypeError"
  | IndexError => "IndexError"
  | ZeroDivisionError => "ZeroDivisionError"
  | RuntimeError => "RuntimeError"
  | OSError => "OSError"
  | LibraryError who => who
  end.

(** What the interpreter does when the program ends: status 0 on a normal
    end; [sys.exit(msg)] prints [msg] on stderr and gives status 1;
    [sys.exit(n)] gives status [n]; any other uncaught exception prints a
    traceback on stderr and gives status 1. *)
Definition run_process (m : M unit) (w : World) : Z * World :=
  match m w with
  | (Ok _, w') => (0, w')
  | (Raise (SystemExit (ExitMsg msg)), w') =>
      (1, snd (eprint msg w'))
  | (Raise (SystemExit (ExitCode n)), w') => (Z.land n 255, w')
  | (Raise e, w') => (1, snd (eprint ("Traceback: " ++ exn_name e) w'))
  end.

End Script.

(** ** Vocabulary of the statements *)

Definition parse_failed_message : string := "ONNX model parsing failed".

(** The collaborator calls made between two states of a run. *)
Definition new_calls (w w' : World) : list call :=
  drop (length (calls w)) (calls w').

(** The path a call creates or writes, if it does. *)
Definition output_path (c : call) : option string :=
  match c with
  | call_makedirs p => Some p
  | call_onnx_export _ p _ => Some p
  | call_onnx_save p => Some p
  | call_open_wb p => Some p
  | _ => None
  end.

(** The path a call reads, if it does. *)
Definition input_path (c : call) : option string :=
  match c with
  | call_convert_float_to_float16_model_path p _ => Some p
  | call_parse_from_file p => Some p
  | _ => None
  end.

Definition dest_eqb (d1 d2 : Dest) : bool :=
  match d1, d2 with
  | dest_model_path, dest_model_path
  | dest_save_path, dest_save_path
  | dest_batch_size, dest_batch_size
  | dest_img_size, dest_img_size
  | dest_max_seq_length, dest_max_seq_length
  | dest_max_gpu_memory, dest_max_gpu_memory
  | dest_onnx_trt, dest_onnx_trt => true
  | _, _ => false
  end.

(** The text given for option [d] on the command line: its last
    occurrence, if there is one. *)
Fixpoint last_supplied (d : Dest) (cl : cmdline) : option string :=
  match cl with
  | [] => None
  | (d', s) :: rest =>
      match last_supplied d rest with
      | Some v => Some v
      | None => if dest_eqb d d' then Some s else None
      end
  end.

(** A binding whose minimum, optimum and maximum are one shape. *)
Definition static_binding (input : string) (shape : list Z) : ShapeBinding :=
  mkShapeBinding input shape shape shape.

(** The options declared with [type=int]. *)
Definition int_dest (d : Dest) : bool :=
  match d with
  | dest_batch_size | dest_max_gpu_memory => true
  | _ => false
  end.

(** The module a call belongs to, following the imports of the script. *)
Inductive library :=
| lib_torch
| lib_diffusers
| lib_os
| lib_onnx
| lib_onnxconverter_common
| lib_gc
| lib_tensorrt
| lib_builtins.

Definition library_of (c : call) : library :=
  match c with
  | call_cuda_is_available => lib_torch
  | call_from_pretrained _ _ _ => lib_diffusers
  | call_to_device _ => lib_torch
  | call_path_exists _ => lib_os
  | call_makedirs _ => lib_os
  | call_jit_trace _ _ _ => lib_torch
  | call_onnx_export _ _ _ => lib_torch
  | call_convert_float_to_float16_model_path _ _ => lib_onnxconverter_common
  | call_onnx_save _ => lib_onnx
  | call_empty_cache => lib_torch
  | call_gc_collect => lib_gc
  | call_create_network _ => lib_tensorrt
  | call_parse_from_file _ => lib_tensorrt
  | call_set_shape _ _ _ _ => lib_tensorrt
  | call_add_optimization_profile _ => lib_tensorrt
  | call_set_memory_pool_limit _ _ => lib_tensorrt
  | call_set_flag _ => lib_tensorrt
  | call_build_serialized_network _ => lib_tensorrt
  | call_open_wb _ => lib_builtins
  | call_file_write => lib_builtins
  end.

(** Something named [p] exists: a directory or a file. *)
Definition present (w : World) (p : string) : Prop :=
  p ∈ dirs w \/ is_Some (files w !! p).

(** The line printed after the engine has been written. *)
Definition saved_message (args : Args) : string :=
  "Engine is saved to " ++ save_path args.

(** ** A concrete set of collaborators

    Used to run the script on concrete inputs. *)
Module Demo.

Definition digit (c : ascii) : option Z :=
  let n := Z.of_nat (nat_of_ascii c) in
  if Z.leb 48 n && Z.leb n 57 then Some (n - 48) else None.

Fixpoint digits (acc : Z) (s : string) : option Z :=
  match s with
  | EmptyString => Some acc
  | String c rest =>
      match digit c with
      | Some d => digits (10 * acc + d) rest
      | None => None
      end
  end.

(** Decimal numerals only: enough of [int] for the examples. *)
Definition int_of_string (s : string) : option Z :=
  match s with
  | EmptyString => None
  | _ => digits 0 s
  end.

(** Keeping the I/O types inserts casts at the graph boundary; otherwise
    the declared float inputs and outputs are narrowed too. *)
Definition narrow (d : dtype) : dtype :=
  match d with
  | Float32 => Float16
  | _ => d
  end.

Definition to_float16 (m : ModelProto) (keep_io_types : bool)
  : option ModelProto :=
  if keep_io_types
  then Some (mkModelProto (graph_input m) (graph_output m)
               ("Cast" :: graph_body m ++ ["Cast"]))
  else Some (mkModelProto
               (map (fun vi => (fst vi, narrow (snd vi))) (graph_input m))
               (map (fun vi => (fst vi, narrow (snd vi))) (graph_output m))
               (graph_body m)).

Definition exported (opts : ExportOptions) : ModelProto :=
  mkModelProto
    [("latent_model_input", Float32); ("t", Int64);
     ("encoder_hidden_states", Float32)]
    [("out_sample", Float32)]
    ["Conv"; "Attention"].

(** The parser accepts serialized graphs, records one error for raw
    bytes and none for a missing file. *)
Definition parse_file (n : list string) (f : option file)
  : bool * list string * list string :=
  match f with
  | Some (OnnxFile m) => (true, [], graph_body m)
  | Some (BinFile _) => (false, ["Failed to parse the ONNX model"], n)
  | None => (false, [], n)
  end.

(** The build fails when no workspace memory is granted. *)
Definition build (n : list string) (cfg : BuilderConfig)
  : option (list Z) :=
  if forallb (fun pl => Z.ltb 0 (snd pl)) (cfg_pool_limits cfg)
  then Some [116; 114; 116]
  else None.

#[export] Instance libs : Libs := {|
  UNet := string;
  ScriptModule := string;
  INetworkDefinition := list string;
  py_int := int_of_string;
  os_makedirs_ok := fun _ _ _ => true;
  os_open_wb_ok := fun _ _ _ => true;
  os_write := fun _ _ _ _ => AllWritten;
  cuda_is_available := false;
  from_pretrained := fun path _ _ => Some path;
  module_to := fun u _ => Some u;
  jit_trace := fun u _ _ _ => Some u;
  onnx_export := fun _ _ opts => Some (exported opts);
  convert_float_to_float16 := to_float16;
  create_network := fun _ => [];
  parse := parse_file;
  set_dimensions_ok := fun _ a _ _ => forallb (Z.leb 0) a;
  build_serialized_network := build
|}.

Definition empty_world : World := mkWorld ∅ ∅ 0 [] [] [].

(** A working directory in which the exporter has already run. *)
Definition exported_world : World :=
  mkWorld (<["unet/model.onnx" := OnnxFile (exported export_options)]> ∅)
    {["unet"]} 0 [] [] [].

(** A working directory whose graph file is empty. *)
Definition corrupt_world : World :=
  mkWorld (<["unet/model.onnx" := BinFile []]> ∅) {["unet"]} 0 [] [] [].

Definition with_mode (mode : string) (a : Args) : Args :=
  mkArgs (model_path a) (save_path a) (batch_size a) (img_size a)
    (max_seq_length a) (max_gpu_memory a) mode.

Definition with_batch_size (b : Z) (a : Args) : Args :=
  mkArgs (model_path a) (save_path a) b (img_size a)
    (max_seq_length a) (max_gpu_memory a) (onnx_trt a).

Definition with_img_size (v : PyVal) (a : Args) : Args :=
  mkArgs (model_path a) (save_path a) (batch_size a) v
    (max_seq_length a) (max_gpu_memory a) (onnx_trt a).

Definition with_max_gpu_memory (g : Z) (a : Args) : Args :=
  mkArgs (model_path a) (save_path a) (batch_size a) (img_size a)
    (max_seq_length a) g (onnx_trt a).

(** The configuration the compiler assembles from the defaults, with a
    memory budget of [g] gigabytes. *)
Definition default_config (g : Z) : BuilderConfig :=
  mkBuilderConfig
    [[static_binding "latent_model_input" [2; 4; 64; 64];
      static_binding "encoder_hidden_states" [2; 77; 768];
      static_binding "t" [1]]]
    [(WORKSPACE, g * 1073741824)] [FP16].

(** A compile run that is granted no workspace memory. *)
Definition starved_args : Args :=
  with_max_gpu_memory 0 (with_mode "trt" default_args).

(** What [get_args] returns for an image size given as the text [s]. *)
Definition img_size_given (s : string) : Args :=
  with_img_size (PyStr s) default_args.

(** The same collaborators without access to the model repository. *)
Definition offline_libs : Libs := {|
  UNet := string;
  ScriptModule := string;
  INetworkDefinition := list string;
  py_int := int_of_string;
  os_makedirs_ok := fun _ _ _ => true;
  os_open_wb_ok := fun _ _ _ => true;
  os_write := fun _ _ _ _ => AllWritten;
  cuda_is_available := false;
  from_pretrained := fun _ _ _ => None;
  module_to := fun u _ => Some u;
  jit_trace := fun u _ _ _ => Some u;
  onnx_export := fun _ _ opts => Some (exported opts);
  convert_float_to_float16 := to_float16;
  create_network := fun _ => [];
  parse := parse_file;
  set_dimensions_ok := fun _ a _ _ => forallb (Z.leb 0) a;
  build_serialized_network := build
|}.

End Demo.

(** ** Properties of the script *)

Section Properties.
Context {L : Libs}.

Lemma bind_ret_tt (m : M unit) (w : World) :
  bind m (fun _ => ret tt) w = m w.
Proof.
  unfold bind, ret. destruct (m w) as [[[]|e] w']; reflexivity.
Qed.

Lemma for_range_map (f : nat -> nat) (body : nat -> M unit) idxs w :
  for_range (map f idxs) body w = for_range idxs (fun i => body (f i)) w.
Proof.
  revert w. induction idxs as [|i idxs IH]; intros w; simpl; [reflexivity|].
  unfold bind. destruct (body (f i) w) as [[[]|e] w']; [apply IH|reflexivity].
Qed.

(** The loop of lines 116-117 prints the recorded errors, all of them, in
    order, and does nothing else. *)
Lemma print_errors_spec (errors : list string) (w : World) :
  print_errors errors w =
  (Ok tt, mkWorld (files w) (dirs w) (rng w) (stdout w ++ errors)
            (stderr w) (calls w)).
Proof.
  revert w. induction errors as [|e errors IH]; intros w.
  - unfold print_errors; simpl. rewrite app_nil_r. destruct w; reflexivity.
  - unfold print_errors. simpl length. rewrite <- cons_seq, <- seq_shift.
    simpl for_range. unfold bind at 1. simpl.
    rewrite for_range_map. simpl.
    change (for_range (seq 0 (length errors))
              (fun i => print (nth i errors ""))) with (print_errors errors).
    rewrite IH. simpl. rewrite <- app_assoc. reflexivity.
Qed.

(** C1. When parsing the graph file does not succeed, the compiler prints
    every recorded parse error on standard output, in order; the process
    then ends through [sys.exit] with its message on standard error, so at
    least one diagnostic line is printed and the status is 1; no file or
    directory is created or changed, and the run consists of the network
    creation and the parse only: the save path is never opened. *)
Theorem parse_failure_exits (args : Args) (w : World)
    (errors : list string) (network : INetworkDefinition) :
  parse (create_network (Z.shiftl 1 EXPLICIT_BATCH))
    (files w !! "unet/model.onnx") = (false, errors, network) ->
  let out := run_process (convert_to_trt args) w in
  fst (convert_to_trt args w) = Raise (SystemExit (ExitMsg parse_failed_message))
  /\ fst out = 1
  /\ stdout (snd out) = (stdout w ++ errors)%list
  /\ stderr (snd out) = (stderr w ++ [parse_failed_message])%list
  /\ (length (stdout w) + length (stderr w)
      < length (stdout (snd out)) + length (stderr (snd out)))%nat
  /\ files (snd out) = files w
  /\ dirs (snd out) = dirs w
  /\ calls (snd out) =
     (calls w ++ [call_create_network 1;
                  call_parse_from_file "./unet/model.onnx"])%list.
Proof.
  intros Hparse out. subst out.
  unfold run_process, convert_to_trt, parse_from_file, bind, invoke.
  simpl. rewrite Hparse. simpl. rewrite print_errors_spec. simpl.
  rewrite <- app_assoc. simpl.
  repeat split; try reflexivity.
  rewrite !length_app. simpl. lia.
Qed.

(** What each pipeline reads of the configuration. *)
Lemma convert_to_onnx_reads (a1 a2 : Args) (w : World) :
  model_path a1 = model_path a2 ->
  sample_hw a1 = sample_hw a2 ->
  max_seq_length a1 = max_seq_length a2 ->
  convert_to_onnx a1 w = convert_to_onnx a2 w.
Proof.
  intros Hm Hs Hl. unfold convert_to_onnx, check_inputs.
  rewrite Hm, Hs, Hl. reflexivity.
Qed.

Lemma convert_to_trt_reads (a1 a2 : Args) (w : World) :
  trt_shapes a1 = trt_shapes a2 ->
  max_gpu_memory a1 = max_gpu_memory a2 ->
  save_path a1 = save_path a2 ->
  convert_to_trt a1 w = convert_to_trt a2 w.
Proof.
  intros Hs Hg Hp. unfold convert_to_trt.
  rewrite Hs, Hg, Hp. reflexivity.
Qed.

(** C2. A mode other than "onnx" and "trt" runs nothing: the state of the
    process (files, directories, output, collaborator calls) is unchanged
    and the exit status is 0.  Mode "onnx" is exactly a run of the
    exporter, mode "trt" exactly a run of the compiler. *)
Theorem mode_dispatch (args : Args) (w : World) :
  (onnx_trt args <> "onnx" -> onnx_trt args <> "trt" ->
   main_body args w = (Ok tt, w) /\ run_process (main_body args) w = (0, w))
  /\ (onnx_trt args = "onnx" -> main_body args w = convert_to_onnx args w)
  /\ (onnx_trt args = "trt" -> main_body args w = convert_to_trt args w).
Proof.
  unfold run_process, main_body, stdout_flush. repeat split.
  - apply String.eqb_neq in H, H0. rewrite H, H0. reflexivity.
  - apply String.eqb_neq in H, H0. rewrite H, H0. reflexivity.
  - intros ->. simpl. apply bind_ret_tt.
  - intros ->. reflexivity.
Qed.

(** C3. With batch size [b], image size [(H, W)] and sequence length
    [Lmax], the compiler computes the latent shape [(2b, 4, H//8, W//8)],
    the encoder-hidden-state shape [(2b, Lmax, 768)] and the timestep
    shape [(b,)]: three shapes, the batch dimension doubled in the first
    two and not in the third. *)
Theorem compiler_shapes (mp sp mode : string) (b H W Lmax mem : Z) :
  trt_shapes
    (mkArgs mp sp b (PyTuple [PyInt H; PyInt W]) (PyInt Lmax) mem mode) =
  Ok ([PyInt (2 * b); PyInt 4; PyInt (H / 8); PyInt (W / 8)],
      [PyInt (2 * b); PyInt Lmax; PyInt 768],
      [PyInt b]).
Proof.
  unfold trt_shapes. simpl. rewrite (Z.mul_comm b 2). reflexivity.
Qed.

Lemma floor_div_8 (x : Z) : 8 * (x / 8) / 8 = x / 8.
Proof. rewrite Z.mul_comm. apply Z.div_mul. lia. Qed.

(** C5. Both shape computations divide the image height and width by 8
    with floor division and raise nothing, whatever the height and width:
    [8 * (H//8) <= H < 8 * (H//8) + 8], strictly below [H] when 8 does not
    divide [H].  There is no divisibility check anywhere: each pipeline
    runs on [(H, W)] exactly as it runs on the truncated size
    [(8 * (H//8), 8 * (W//8))]. *)
Theorem floor_division_truncates (mp sp mode : string) (b H W mem : Z)
    (msl : PyVal) (w : World) :
  let args := mkArgs mp sp b (PyTuple [PyInt H; PyInt W]) msl mem mode in
  let args8 :=
    mkArgs mp sp b (PyTuple [PyInt (8 * (H / 8)); PyInt (8 * (W / 8))])
      msl mem mode in
  sample_hw args = Ok (PyInt (H / 8), PyInt (W / 8))
  /\ trt_shapes args =
     Ok ([PyInt (b * 2); PyInt 4; PyInt (H / 8); PyInt (W / 8)],
         [PyInt (b * 2); msl; PyInt 768], [PyInt b])
  /\ 8 * (H / 8) <= H < 8 * (H / 8) + 8
  /\ 8 * (W / 8) <= W < 8 * (W / 8) + 8
  /\ (H mod 8 <> 0 -> 8 * (H / 8) < H)
  /\ (W mod 8 <> 0 -> 8 * (W / 8) < W)
  /\ convert_to_onnx args w = convert_to_onnx args8 w
  /\ convert_to_trt args w = convert_to_trt args8 w.
Proof.
  intros args args8.
  pose proof (Z.div_mod H 8 ltac:(lia)) as HH.
  pose proof (Z.mod_pos_bound H 8 ltac:(lia)) as HHb.
  pose proof (Z.div_mod W 8 ltac:(lia)) as HW.
  pose proof (Z.mod_pos_bound W 8 ltac:(lia)) as HWb.
  repeat split; try reflexivity; try lia.
  - apply convert_to_onnx_reads; try reflexivity.
    unfold sample_hw; simpl. rewrite !floor_div_8. reflexivity.
  - apply convert_to_trt_reads; try reflexivity.
    unfold trt_shapes; simpl. rewrite !floor_div_8. reflexivity.
Qed.

(** The shapes of the two sample tuples, when they can be built. *)
Lemma check_inputs_shapes (args : Args) (h wd : PyVal) (device : string)
    (w w' : World) (ex chk : list Tensor) :
  check_inputs args h wd device w = (Ok (ex, chk), w') ->
  exists h' w8 l : Z,
    h = PyInt h' /\ wd = PyInt w8 /\ max_seq_length args = PyInt l
    /\ map t_shape ex = [[2; 4; h'; w8]; [1]; [2; l; 768]; []; []]
    /\ map t_shape chk = [[2; 4; h'; w8]; [1]; [2; 12; 768]; []; []].
Proof.
  unfold check_inputs, bind, torch_rand, raise, ret. simpl.
  destruct h as [h'| |]; try discriminate.
  destruct wd as [w8| |]; try discriminate. simpl.
  destruct (Z.leb 0 h' && (Z.leb 0 w8 && true)); try discriminate.
  destruct (max_seq_length args) as [l| |]; try discriminate. simpl.
  destruct (Z.leb 0 l); try discriminate. simpl.
  intros [= <- <- <-]. exists h', w8, l. repeat split; reflexivity.
Qed.

(** C8. The exporter never reads the batch size: two configurations that
    differ only there give the same run (same result, same files, same
    calls with the same arguments), and the sample inputs it traces with
    have batch dimension 2 whatever the configuration. *)
Theorem exporter_ignores_batch_size (mp sp mode : string) (b1 b2 mem : Z)
    (isz msl : PyVal) (w : World) :
  convert_to_onnx (mkArgs mp sp b1 isz msl mem mode) w =
  convert_to_onnx (mkArgs mp sp b2 isz msl mem mode) w
  /\ forall h wd device w0 w' ex chk,
       check_inputs (mkArgs mp sp b1 isz msl mem mode) h wd device w0 =
       (Ok (ex, chk), w') ->
       (exists r, (map t_shape ex) !! 0%nat = Some (2 :: r))
       /\ (exists r, (map t_shape ex) !! 2%nat = Some (2 :: r))
       /\ (exists r, (map t_shape chk) !! 0%nat = Some (2 :: r))
       /\ (exists r, (map t_shape chk) !! 2%nat = Some (2 :: r)).
Proof.
  split.
  - apply convert_to_onnx_reads; reflexivity.
  - intros h wd device w0 w' ex chk Hci.
    destruct (check_inputs_shapes _ _ _ _ _ _ _ _ Hci)
      as (h' & w8 & l & _ & _ & _ & -> & ->).
    repeat split; eexists; reflexivity.
Qed.

(** *** Symbolic execution of a run *)

Lemma new_calls_app w f d r o e l :
  new_calls w (mkWorld f d r o e (calls w ++ l)) = l.
Proof. unfold new_calls. simpl. apply drop_app_length. Qed.

(** The sample tensors only advance the random generator. *)
Lemma torch_rand_frame size device w :
  exists n, snd (torch_rand size device w) = set_rng n w.
Proof.
  unfold torch_rand, raise. destruct (as_ints size) as [dims|].
  - destruct (forallb (Z.leb 0) dims); simpl; eexists; try reflexivity.
    instantiate (1 := rng w). destruct w; reflexivity.
  - exists (rng w). destruct w; reflexivity.
Qed.

Lemma check_inputs_frame args h wd device w :
  exists n, snd (check_inputs args h wd device w) = set_rng n w.
Proof.
  unfold check_inputs, bind, ret.
  destruct (torch_rand_frame [PyInt 2; PyInt 4; h; wd] device w)
    as [n1 H1].
  destruct (torch_rand _ _ w) as [[x0|e] w1]; simpl in H1; subst w1;
    [|eexists; reflexivity].
  destruct (torch_rand_frame [PyInt 2; max_seq_length args; PyInt 768]
              device (set_rng n1 w)) as [n2 H2].
  destruct (torch_rand _ _ (set_rng n1 w)) as [[e0|e] w2];
    simpl in H2; subst w2; [|eexists; reflexivity].
  destruct (torch_rand_frame [PyInt 2; PyInt 4; h; wd] device
              (set_rng n2 (set_rng n1 w))) as [n3 H3].
  destruct (torch_rand _ _ (set_rng n2 _)) as [[x1|e] w3];
    simpl in H3; subst w3; [|eexists; reflexivity].
  destruct (torch_rand_frame [PyInt 2; PyInt 12; PyInt 768] device
              (set_rng n3 (set_rng n2 (set_rng n1 w)))) as [n4 H4].
  destruct (torch_rand _ _ (set_rng n3 _)) as [[e1|e] w4];
    simpl in H4; subst w4; eexists; reflexivity.
Qed.

(** One step of a run: case analysis on the next collaborator answer. *)
Ltac exec_step :=
  match goal with
  | |- context [print_errors ?e ?w] => rewrite (print_errors_spec e w)
  | |- context [check_inputs ?a ?h ?wd ?d ?w] =>
      let n := fresh "n" in
      let Hn := fresh "Hn" in
      let w1 := fresh "w" in
      destruct (check_inputs_frame a h wd d w) as [n Hn];
      destruct (check_inputs a h wd d w) as [[[? ?]|?] w1] eqn:?;
      simpl in Hn; subst w1; unfold set_rng
  | |- context [from_pretrained ?a ?b ?c] =>
      destruct (from_pretrained a b c) eqn:?
  | |- context [module_to ?a ?b] => destruct (module_to a b) eqn:?
  | |- context [jit_trace ?a ?b ?c ?d] => destruct (jit_trace a b c d) eqn:?
  | |- context [onnx_export ?a ?b ?c] => destruct (onnx_export a b c) eqn:?
  | |- context [convert_float_to_float16 ?a ?b] =>
      destruct (convert_float_to_float16 a b) eqn:?
  | |- context [sample_hw ?a] => destruct (sample_hw a) as [[? ?]|] eqn:?
  | |- context [os_makedirs_ok ?a ?b ?c] =>
      destruct (os_makedirs_ok a b c) eqn:?
  | |- context [<[?k:=?v]> ?m !! ?k] => rewrite (lookup_insert_eq m k v)
  | |- context [negb ?b] => destruct b eqn:?
  | |- context [trt_shapes ?a] =>
      destruct (trt_shapes a) as [[[? ?] ?]|] eqn:?
  | |- context [as_ints ?l] => destruct (as_ints l) eqn:?
  | |- context [set_dimensions_ok ?a ?b ?c ?d] =>
      destruct (set_dimensions_ok a b c d) eqn:?
  | |- context [build_serialized_network ?n ?c] =>
      destruct (build_serialized_network n c) eqn:?
  | |- context [os_open_wb_ok ?a ?b ?c] =>
      destruct (os_open_wb_ok a b c) eqn:?
  | |- context [os_write ?a ?b ?c ?d] =>
      destruct (os_write a b c d) eqn:?
  end; simpl.

Ltac exec_onnx :=
  unfold convert_to_onnx, torch_onnx_export,
    convert_float_to_float16_model_path, onnx_save, os_path_exists,
    os_makedirs, write_file, of_option, lift, raise, ret, bind, invoke,
    set_files, set_dirs, set_rng;
  simpl; repeat exec_step;
  rewrite <- ?app_assoc; simpl; rewrite ?new_calls_app; simpl.

Ltac exec_trt :=
  unfold convert_to_trt, parse_from_file, set_shape,
    add_optimization_profile, set_memory_pool_limit, set_flag, open_wb,
    file_write, write_file, print, lift, sys_exit, raise, ret, bind,
    invoke, set_files;
  simpl;
  destruct (parse _ _) as [[?ok ?errs] ?net] eqn:?; simpl;
  repeat exec_step;
  rewrite <- ?app_assoc; simpl; rewrite ?new_calls_app; simpl.

(** Membership in an explicit list of calls, case by case. *)
Ltac in_cases H :=
  simpl in H;
  repeat (destruct H as [H|H]; [try discriminate H|]);
  try contradiction.

Lemma present_unet_bool (w : World) :
  bool_decide ("unet" ∈ dirs w) || bool_decide (is_Some (files w !! "unet"))
  = true <-> present w "unet".
Proof.
  unfold present. rewrite orb_true_iff, !bool_decide_eq_true. reflexivity.
Qed.

(** The calls of an explicit list that carry a path. *)
Ltac path_cases H Hp :=
  simpl in H;
  repeat (destruct H as [<-|H]; [simpl in Hp; try discriminate Hp|]);
  try contradiction.

(** C4. Whenever the compiler reaches the build step, the configuration
    it passes holds exactly one optimization profile, and that profile
    binds exactly the three inputs latent_model_input,
    encoder_hidden_states and t, each with minimum = optimum = maximum =
    the one shape computed for it. *)
Theorem one_static_profile (args : Args) (w : World) (cfg : BuilderConfig) :
  In (call_build_serialized_network cfg)
     (new_calls w (snd (convert_to_trt args w))) ->
  exists (l e t : list Z) (ls es ts : list PyVal),
    cfg_profiles cfg =
      [[static_binding "latent_model_input" l;
        static_binding "encoder_hidden_states" e;
        static_binding "t" t]]
    /\ trt_shapes args = Ok (ls, es, ts)
    /\ as_ints ls = Some l /\ as_ints es = Some e /\ as_ints ts = Some t.
Proof.
  exec_trt; intros H; in_cases H.
  all: injection H as <-; simpl; eauto 12.
Qed.

(** C9. If the build step is reached and returns no engine, and the
    operating system lets the process create the file at the save path,
    then the run ends with the [TypeError] of [f.write(None)], the exit
    status is 1, and the file at the save path is left on disk with zero
    length: it was created (or truncated) by [open] before the write was
    attempted.  Nothing else is written, and nothing is printed after the
    parse errors. *)
Theorem failed_build_leaves_empty_file (args : Args) (w : World)
    (cfg : BuilderConfig) :
  let parsed := parse (create_network (Z.shiftl 1 EXPLICIT_BATCH))
                  (files w !! "unet/model.onnx") in
  let out := convert_to_trt args w in
  In (call_build_serialized_network cfg) (new_calls w (snd out)) ->
  build_serialized_network (snd parsed) cfg = None ->
  os_open_wb_ok (files w) (dirs w) (save_path args) = true ->
  fst out = Raise TypeError
  /\ fst (run_process (convert_to_trt args) w) = 1
  /\ files (snd out) = <[normpath (save_path args) := BinFile []]> (files w)
  /\ dirs (snd out) = dirs w
  /\ stdout (snd out) = (stdout w ++ snd (fst parsed))%list
  /\ exists l,
       new_calls w (snd out) =
       (l ++ [call_build_serialized_network cfg;
              call_open_wb (save_path args); call_file_write])%list.
Proof.
  intros parsed out. subst parsed out. unfold run_process.
  exec_trt; intros H Hnone Hopen; in_cases H.
  all: try congruence.
  all: injection H as <-; try congruence.
  repeat split; try reflexivity.
  eexists [_; _; _; _; _; _; _; _]. reflexivity.
Qed.

(** C6. Taking from the conversion library that a conversion asked to
    keep the I/O types returns a graph with the declared input and output
    element types of the graph it was given: after every successful
    exporter run, unet/model_fp16.onnx holds the conversion, made with
    [keep_io_types=True], of the graph held by unet/model.onnx, and the
    declared input and output element types of the two files are equal. *)
Theorem reduced_precision_keeps_io_types (args : Args) (w w' : World) :
  (forall m m', convert_float_to_float16 m true = Some m' ->
                io_types m' = io_types m) ->
  convert_to_onnx args w = (Ok tt, w') ->
  exists m m',
    files w' !! "unet/model.onnx" = Some (OnnxFile m)
    /\ files w' !! "unet/model_fp16.onnx" = Some (OnnxFile m')
    /\ convert_float_to_float16 m true = Some m'
    /\ io_types m' = io_types m
    /\ In (call_convert_float_to_float16_model_path "unet/model.onnx" true)
         (new_calls w w').
Proof.
  intros Hlib. exec_onnx; try discriminate.
  all: intros [= <-]; simpl; rewrite new_calls_app.
  all: eexists _, _; rewrite lookup_insert_ne by discriminate.
  all: rewrite !lookup_insert_eq.
  all: repeat split; eauto; simpl; tauto.
Qed.

(** *** The paths of the exporter *)

Lemma exporter_output_paths (args : Args) (w : World) (c : call)
    (p : string) :
  In c (new_calls w (snd (convert_to_onnx args w))) ->
  output_path c = Some p ->
  p = "unet" \/ p = "unet/model.onnx" \/ p = "unet/model_fp16.onnx".
Proof.
  exec_onnx; intros H Hp.
  all: path_cases H Hp.
  all: injection Hp as <-; auto.
Qed.

Lemma exporter_input_paths (args : Args) (w : World) (c : call)
    (p : string) :
  In c (new_calls w (snd (convert_to_onnx args w))) ->
  input_path c = Some p -> p = "unet/model.onnx".
Proof.
  exec_onnx; intros H Hp.
  all: path_cases H Hp.
  all: injection Hp as <-; auto.
Qed.

Lemma exporter_success_writes (args : Args) (w : World) :
  fst (convert_to_onnx args w) = Ok tt ->
  exists (ex : list Tensor) (traced : ScriptModule) (m m' : ModelProto),
    In (call_onnx_export ex "unet/model.onnx" export_options)
       (new_calls w (snd (convert_to_onnx args w)))
    /\ In (call_convert_float_to_float16_model_path "unet/model.onnx" true)
         (new_calls w (snd (convert_to_onnx args w)))
    /\ In (call_onnx_save "unet/model_fp16.onnx")
         (new_calls w (snd (convert_to_onnx args w)))
    /\ onnx_export traced ex export_options = Some m
    /\ convert_float_to_float16 m true = Some m'
    /\ files (snd (convert_to_onnx args w)) !! "unet/model.onnx"
       = Some (OnnxFile m)
    /\ files (snd (convert_to_onnx args w)) !! "unet/model_fp16.onnx"
       = Some (OnnxFile m')
    /\ present (snd (convert_to_onnx args w)) "unet"
    /\ (~ present w "unet" ->
        In (call_makedirs "unet")
           (new_calls w (snd (convert_to_onnx args w)))
        /\ "unet" ∈ dirs (snd (convert_to_onnx args w))).
Proof.
  exec_onnx; try discriminate; intros _.
  all: eexists _, _, _, _.
  all: rewrite lookup_insert_ne by discriminate; rewrite !lookup_insert_eq.
  all: do 3 (split; [simpl; tauto|]).
  all: do 4 (split; [first [eassumption | reflexivity]|]).
  - match goal with
    | H : orb _ _ = true |- _ => apply present_unet_bool in H
    end.
    split; [|intros Hn; contradiction].
    unfold present in *. simpl.
    match goal with
    | H : _ \/ _ |- _ => destruct H as [H|H]; [left; exact H|right]
    end.
    rewrite !lookup_insert_ne by discriminate. assumption.
  - split; [left; simpl; set_solver|].
    intros _. split; [tauto|set_solver].
Qed.

(** *** The paths of the compiler *)

Lemma compiler_input_paths (args : Args) (w : World) (c : call)
    (p : string) :
  In c (new_calls w (snd (convert_to_trt args w))) ->
  input_path c = Some p -> p = "./unet/model.onnx".
Proof.
  exec_trt; intros H Hp.
  all: path_cases H Hp.
  all: injection Hp as <-; reflexivity.
Qed.

Lemma compiler_output_paths (args : Args) (w : World) (c : call)
    (p : string) :
  In c (new_calls w (snd (convert_to_trt args w))) ->
  output_path c = Some p -> p = save_path args.
Proof.
  exec_trt; intros H Hp.
  all: path_cases H Hp.
  all: injection Hp as <-; reflexivity.
Qed.

Lemma compiler_reads_graph (args : Args) (w : World) :
  let parsed := parse (create_network (Z.shiftl 1 EXPLICIT_BATCH))
                  (files w !! "unet/model.onnx") in
  In (call_parse_from_file "./unet/model.onnx")
     (new_calls w (snd (convert_to_trt args w)))
  /\ (fst (fst parsed) = false ->
      fst (convert_to_trt args w)
      = Raise (SystemExit (ExitMsg parse_failed_message)))
  /\ (fst (convert_to_trt args w) = Ok tt -> fst (fst parsed) = true)
  /\ exists rest,
       stdout (snd (convert_to_trt args w))
       = (stdout w ++ snd (fst parsed) ++ rest)%list.
Proof.
  intros parsed. subst parsed.
  exec_trt.
  all: split; [tauto|].
  all: split; [intros; first [reflexivity | discriminate]|].
  all: split; [intros; first [reflexivity | discriminate]|].
  all: first [exists []; rewrite app_nil_r; reflexivity
             | eexists; reflexivity].
Qed.

Lemma compiler_success_writes (args : Args) (w : World) :
  let parsed := parse (create_network (Z.shiftl 1 EXPLICIT_BATCH))
                  (files w !! "unet/model.onnx") in
  fst (convert_to_trt args w) = Ok tt ->
  exists cfg b,
    In (call_build_serialized_network cfg)
       (new_calls w (snd (convert_to_trt args w)))
    /\ build_serialized_network (snd parsed) cfg = Some b
    /\ In (call_open_wb (save_path args))
         (new_calls w (snd (convert_to_trt args w)))
    /\ In call_file_write (new_calls w (snd (convert_to_trt args w)))
    /\ files (snd (convert_to_trt args w)) !! normpath (save_path args)
       = Some (BinFile b).
Proof.
  intros parsed. subst parsed.
  exec_trt; try discriminate; intros _.
  eexists _, _. split; [simpl; tauto|]. split; [eassumption|].
  split; [simpl; tauto|]. split; [simpl; tauto|]. reflexivity.
Qed.

(** C7. Every path the exporter passes to a call that creates or writes
    is unet, unet/model.onnx or unet/model_fp16.onnx, and the only path it
    passes to a call that reads is unet/model.onnx.  A successful run has
    exported to unet/model.onnx and saved to unet/model_fp16.onnx: the
    first then holds the graph the export produced, the second its
    reduced-precision conversion, and unet exists, made by the run when
    nothing of that name existed.  Every run of the compiler parses the
    path ./unet/model.onnx and passes no other path to a call that reads;
    what it prints and whether it goes on are decided by the file stored
    there; it runs identically whatever the configured model path.  The
    only path the compiler passes to a call that creates or writes is the
    configured save path, and after a successful run the file there holds
    the bytes the build step returned for the parsed network. *)
Theorem fixed_paths (args : Args) (w : World) :
  let e := convert_to_onnx args w in
  let c := convert_to_trt args w in
  let parsed := parse (create_network (Z.shiftl 1 EXPLICIT_BATCH))
                  (files w !! "unet/model.onnx") in
  (forall cl p, In cl (new_calls w (snd e)) -> output_path cl = Some p ->
       p = "unet" \/ p = "unet/model.onnx" \/ p = "unet/model_fp16.onnx")
  /\ (forall cl p, In cl (new_calls w (snd e)) -> input_path cl = Some p ->
         p = "unet/model.onnx")
  /\ (fst e = Ok tt ->
      exists (ex : list Tensor) (traced : ScriptModule) (m m' : ModelProto),
        In (call_onnx_export ex "unet/model.onnx" export_options)
           (new_calls w (snd e))
        /\ In (call_convert_float_to_float16_model_path "unet/model.onnx"
                 true) (new_calls w (snd e))
        /\ In (call_onnx_save "unet/model_fp16.onnx") (new_calls w (snd e))
        /\ onnx_export traced ex export_options = Some m
        /\ convert_float_to_float16 m true = Some m'
        /\ files (snd e) !! "unet/model.onnx" = Some (OnnxFile m)
        /\ files (snd e) !! "unet/model_fp16.onnx" = Some (OnnxFile m')
        /\ present (snd e) "unet"
        /\ (~ present w "unet" ->
            In (call_makedirs "unet") (new_calls w (snd e))
            /\ "unet" ∈ dirs (snd e)))
  /\ In (call_parse_from_file "./unet/model.onnx") (new_calls w (snd c))
  /\ (forall cl p, In cl (new_calls w (snd c)) -> input_path cl = Some p ->
         p = "./unet/model.onnx")
  /\ (fst (fst parsed) = false ->
      fst c = Raise (SystemExit (ExitMsg parse_failed_message)))
  /\ (fst c = Ok tt -> fst (fst parsed) = true)
  /\ (exists rest,
         stdout (snd c) = (stdout w ++ snd (fst parsed) ++ rest)%list)
  /\ (forall mp,
        convert_to_trt
          (mkArgs mp (save_path args) (batch_size args) (img_size args)
             (max_seq_length args) (max_gpu_memory args) (onnx_trt args)) w
        = c)
  /\ (forall cl p, In cl (new_calls w (snd c)) -> output_path cl = Some p ->
         p = save_path args)
  /\ (fst c = Ok tt ->
      exists cfg b,
        In (call_build_serialized_network cfg) (new_calls w (snd c))
        /\ build_serialized_network (snd parsed) cfg = Some b
        /\ In (call_open_wb (save_path args)) (new_calls w (snd c))
        /\ In call_file_write (new_calls w (snd c))
        /\ files (snd c) !! normpath (save_path args) = Some (BinFile b)).
Proof.
  intros e c parsed. subst e c parsed.
  destruct (compiler_reads_graph args w) as (Hr1 & Hr2 & Hr3 & Hr4).
  split; [intros cl p; apply exporter_output_paths|].
  split; [intros cl p; apply exporter_input_paths|].
  split; [apply exporter_success_writes|].
  split; [exact Hr1|].
  split; [intros cl p; apply compiler_input_paths|].
  split; [exact Hr2|]. split; [exact Hr3|]. split; [exact Hr4|].
  split; [intros mp; apply convert_to_trt_reads; reflexivity|].
  split; [intros cl p; apply compiler_output_paths|].
  apply compiler_success_writes.
Qed.

(** *** The options declared without a converter *)

(** What parsing stores for the two options declared without [type=]. *)
Lemma parse_args_untyped (cl : cmdline) :
  forall (a a' : Args) (w w' : World),
    parse_args a cl w = (Ok a', w') ->
    img_size a' =
      match last_supplied dest_img_size cl with
      | Some s => PyStr s
      | None => img_size a
      end
    /\ max_seq_length a' =
       match last_supplied dest_max_seq_length cl with
       | Some s => PyStr s
       | None => max_seq_length a
       end.
Proof.
  induction cl as [|[d s] rest IH]; intros a a' w w' Hrun.
  - injection Hrun as <- _. split; reflexivity.
  - simpl in Hrun. unfold bind in Hrun.
    destruct (store a d s w) as [[a1|e] w1] eqn:Hstore; [|discriminate].
    destruct (IH _ _ _ _ Hrun) as [Hi Hm]. rewrite Hi, Hm. simpl.
    destruct (last_supplied dest_img_size rest),
      (last_supplied dest_max_seq_length rest);
      destruct d; simpl in *; unfold ret, parser_error, bind in Hstore;
      simpl in Hstore;
      repeat match type of Hstore with
        | context [py_int ?x] => destruct (py_int x)
        end;
      try discriminate; injection Hstore as <- _; split; reflexivity.
Qed.

Lemma sample_hw_str (a : Args) (s : string) :
  img_size a = PyStr s ->
  sample_hw a =
  Raise (if Nat.leb 2 (py_len s) then TypeError else IndexError).
Proof.
  intros H. unfold sample_hw, py_len. rewrite H. simpl.
  destruct (py_chars s) as [|c [|c' l]]; reflexivity.
Qed.

Lemma trt_shapes_str (a : Args) (s : string) :
  img_size a = PyStr s ->
  trt_shapes a =
  Raise (if Nat.leb 1 (py_len s) then TypeError else IndexError).
Proof.
  intros H. unfold trt_shapes, py_len. rewrite H. simpl.
  destruct (py_chars s) as [|c l]; reflexivity.
Qed.

Lemma string_take_drop (n : nat) (s : string) :
  String.append (string_take n s) (string_drop n s) = s.
Proof.
  revert s. induction n as [|n IH]; intros [|c s]; try reflexivity.
  change (String c (String.append (string_take n s) (string_drop n s))
          = String c s).
  f_equal. apply IH.
Qed.

Lemma string_drop_length (n : nat) (s : string) :
  (String.length (string_drop n s) <= String.length s)%nat.
Proof.
  revert s. induction n as [|n IH]; intros [|c s]; simpl; try lia.
  specialize (IH s). lia.
Qed.

Lemma py_chars_from_join (fuel : nat) :
  forall s, (String.length s <= fuel)%nat ->
            fold_right String.append "" (py_chars_from fuel s) = s.
Proof.
  induction fuel as [|fuel IH]; intros [|c s] Hlen; simpl in *;
    try reflexivity; try lia.
  rewrite IH.
  - change (String c (String.append (string_take (utf8_width c s - 1) s)
                        (string_drop (utf8_width c s - 1) s))
            = String c s).
    rewrite string_take_drop. reflexivity.
  - pose proof (string_drop_length (utf8_width c s - 1) s). lia.
Qed.

(** The characters of a text, put together again, are the text. *)
Lemma py_chars_join (s : string) :
  fold_right String.append "" (py_chars s) = s.
Proof. apply py_chars_from_join. lia. Qed.

(** A text has no character exactly when it is empty. *)
Lemma py_len_0 (s : string) : py_len s = 0%nat <-> s = "".
Proof.
  unfold py_len, py_chars. destruct s; simpl; split; try reflexivity;
    discriminate.
Qed.

(** C10 (as amended). The image-size and sequence-length options have no
    converter, so whatever text is given for them is stored as a [str].
    With a given image size, [args.img_size[0]] is the first character of
    the text, or an [IndexError] when the text is empty (characters are
    those Python counts: the text is the characters put together, and it
    has none only when it is empty); the exporter's shape computation
    raises [TypeError] at [height // 8] when the text has at least two
    characters and [IndexError] before that otherwise; the compiler's
    raises [TypeError] at [args.img_size[0] // 8] when the text is not
    empty and [IndexError] otherwise.  With a given sequence length,
    [torch.rand] refuses the size with a [TypeError], the sample inputs are
    never built, and [set_shape] refuses the embedding shape with a
    [TypeError].  So in both pipelines the shapes are obtained only when
    both options keep their defaults, [(512, 512)] and [77]. *)
Theorem untyped_flags_stay_strings (cl : cmdline) (w w' : World) (a : Args) :
  get_args cl w = (Ok a, w') ->
  img_size a =
    match last_supplied dest_img_size cl with
    | Some s => PyStr s
    | None => PyTuple [PyInt 512; PyInt 512]
    end
  /\ max_seq_length a =
     match last_supplied dest_max_seq_length cl with
     | Some s => PyStr s
     | None => PyInt 77
     end
  /\ (forall s, last_supplied dest_img_size cl = Some s ->
        py_getitem (img_size a) 0 =
          match py_chars s with
          | [] => Raise IndexError
          | c :: _ => Ok (PyStr c)
          end
        /\ fold_right String.append "" (py_chars s) = s
        /\ (py_len s = 0%nat <-> s = "")
        /\ sample_hw a =
           Raise (if Nat.leb 2 (py_len s) then TypeError else IndexError)
        /\ trt_shapes a =
           Raise (if Nat.leb 1 (py_len s) then TypeError else IndexError))
  /\ (forall s, last_supplied dest_max_seq_length cl = Some s ->
        (forall device w0,
            fst (torch_rand [PyInt 2; max_seq_length a; PyInt 768] device w0)
            = Raise TypeError)
        /\ (forall h wd device w0,
               exists e, fst (check_inputs a h wd device w0) = Raise e)
        /\ (forall profile w0,
               let embed_shape :=
                 [PyInt (batch_size a * 2); max_seq_length a; PyInt 768] in
               fst (set_shape profile "encoder_hidden_states"
                      embed_shape embed_shape embed_shape w0)
               = Raise TypeError))
  /\ (forall h wd device w0 w1 ex chk,
        sample_hw a = Ok (h, wd) ->
        check_inputs a h wd device w0 = (Ok (ex, chk), w1) ->
        img_size a = PyTuple [PyInt 512; PyInt 512]
        /\ max_seq_length a = PyInt 77)
  /\ (forall ls es ts,
        trt_shapes a = Ok (ls, es, ts) -> as_ints es <> None ->
        img_size a = PyTuple [PyInt 512; PyInt 512]
        /\ max_seq_length a = PyInt 77).
Proof.
  intros Hrun. destruct (parse_args_untyped _ _ _ _ _ Hrun) as [Hi Hm].
  simpl in Hi, Hm.
  split; [exact Hi|]. split; [exact Hm|]. split; [|split; [|split]].
  - intros s Hs. rewrite Hs in Hi.
    split; [rewrite Hi; simpl; destruct (py_chars s); reflexivity|].
    split; [apply py_chars_join|]. split; [apply py_len_0|].
    split; [apply sample_hw_str | apply trt_shapes_str]; exact Hi.
  - intros s Hs. rewrite Hs in Hm. split; [|split].
    + intros device w0. rewrite Hm. reflexivity.
    + intros h wd device w0.
      destruct (check_inputs a h wd device w0) as [[[ex chk]|e] w1] eqn:Hci;
        [|eexists; reflexivity].
      destruct (check_inputs_shapes _ _ _ _ _ _ _ _ Hci)
        as (? & ? & l & _ & _ & Hl & _). congruence.
    + intros profile w0. simpl. rewrite Hm. reflexivity.
  - intros h wd device w0 w1 ex chk Hhw Hci.
    destruct (last_supplied dest_img_size cl) as [s|].
    { rewrite (sample_hw_str _ _ Hi) in Hhw. discriminate. }
    split; [exact Hi|].
    destruct (last_supplied dest_max_seq_length cl) as [s|]; [|exact Hm].
    destruct (check_inputs_shapes _ _ _ _ _ _ _ _ Hci)
      as (? & ? & l & _ & _ & Hl & _). congruence.
  - intros ls es ts Hsh Hes.
    destruct (last_supplied dest_img_size cl) as [s|].
    { rewrite (trt_shapes_str _ _ Hi) in Hsh. discriminate. }
    split; [exact Hi|].
    destruct (last_supplied dest_max_seq_length cl) as [s|]; [|exact Hm].
    unfold trt_shapes in Hsh. rewrite Hi, Hm in Hsh. simpl in Hsh.
    injection Hsh as _ <- _. simpl in Hes. congruence.
Qed.

(** ** Further properties *)

(** *** Shapes *)

(** The exporter and the compiler derive the same latent height and width
    from a configuration: one obtains [(h, w)] exactly when the other
    obtains the latent shape [(2 * batch_size, 4, h, w)], whatever value
    [img_size] holds. *)
Theorem shapes_agree (args : Args) (h wd : PyVal) :
  sample_hw args = Ok (h, wd) <->
  trt_shapes args =
  Ok ([PyInt (batch_size args * 2); PyInt 4; h; wd],
      [PyInt (batch_size args * 2); max_seq_length args; PyInt 768],
      [PyInt (batch_size args)]).
Proof.
  unfold sample_hw, trt_shapes.
  destruct (py_getitem (img_size args) 0) as [i0|e0].
  - destruct (py_getitem (img_size args) 1) as [i1|e1];
      destruct (py_floordiv i0 (PyInt 8)) as [h0|e2];
      try destruct (py_floordiv i1 (PyInt 8)) as [w0|e3];
      split; intros H; try discriminate; injection H as <- <-; reflexivity.
  - split; discriminate.
Qed.

(** *** The build configuration *)

(** Whenever the build step is reached, the configuration grants the
    workspace pool [max_gpu_memory * 2^30] bytes, whatever the sign of
    [max_gpu_memory] (the product binds tighter than the shift and nothing
    validates the budget), sets no other pool limit, and enables FP16 and
    no other flag. *)
Theorem workspace_limit_in_bytes (args : Args) (w : World)
    (cfg : BuilderConfig) :
  In (call_build_serialized_network cfg)
     (new_calls w (snd (convert_to_trt args w))) ->
  cfg_pool_limits cfg = [(WORKSPACE, max_gpu_memory args * 2 ^ 30)]
  /\ cfg_flags cfg = [FP16].
Proof.
  exec_trt; intros H; in_cases H.
  all: injection H as <-; simpl.
  all: rewrite Z.shiftl_mul_pow2, Z.mul_1_r by lia; split; reflexivity.
Qed.

(** *** Output of the compiler *)

(** In every run of the compiler the recorded parse errors are printed,
    also when parsing succeeds; the only other line is the final one, which
    is printed exactly when the run returns normally. *)
Theorem compiler_stdout (args : Args) (w : World) :
  let parsed := parse (create_network (Z.shiftl 1 EXPLICIT_BATCH))
                  (files w !! "unet/model.onnx") in
  let out := convert_to_trt args w in
  stdout (snd out) =
  (stdout w ++ snd (fst parsed)
   ++ match fst out with
      | Ok _ => [saved_message args]
      | Raise _ => []
      end)%list
  /\ stderr (snd out) = stderr w.
Proof.
  intros parsed out. subst parsed out. unfold saved_message.
  exec_trt; rewrite ?app_nil_r; split; reflexivity.
Qed.


(** *** Which libraries each pipeline uses *)

(** No call the exporter makes to a collaborator is a TensorRT call or a
    builtin file operation, and no call the compiler makes is a torch,
    diffusers, os, onnx, onnxconverter_common or gc call. *)
Theorem pipelines_use_disjoint_libraries (args : Args) (w : World) :
  (forall c, In c (new_calls w (snd (convert_to_onnx args w))) ->
             library_of c <> lib_tensorrt /\ library_of c <> lib_builtins)
  /\ (forall c, In c (new_calls w (snd (convert_to_trt args w))) ->
               library_of c <> lib_torch
               /\ library_of c <> lib_diffusers
               /\ library_of c <> lib_os
               /\ library_of c <> lib_onnx
               /\ library_of c <> lib_onnxconverter_common
               /\ library_of c <> lib_gc).
Proof.
  split.
  - intros c. exec_onnx; intros H; simpl in H.
    all: repeat (destruct H as [<-|H]; [split; discriminate|]).
    all: contradiction.
  - intros c. exec_trt; intros H; simpl in H.
    all: repeat (destruct H as [<-|H]; [repeat split; discriminate|]).
    all: contradiction.
Qed.

(** *** Argument parsing *)

Lemma store_ok_state (a a' : Args) (d : Dest) (s : string) (w w' : World) :
  store a d s w = (Ok a', w') -> w' = w.
Proof.
  destruct d; unfold store, ret, parser_error, bind, eprint, sys_exit, raise;
    simpl; try destruct (py_int s); intros H; try discriminate;
    injection H as _ <-; reflexivity.
Qed.

Lemma store_raises (a : Args) (d : Dest) (s : string) (w w' : World)
    (e : exn) :
  store a d s w = (Raise e, w') ->
  int_dest d = true /\ py_int s = None
  /\ e = SystemExit (ExitCode 2)
  /\ exists msg, w' = snd (eprint msg w).
Proof.
  destruct d; unfold store, ret, parser_error, bind, sys_exit, raise;
    simpl; try destruct (py_int s) eqn:Hint; intros H; try discriminate;
    injection H as <- <-; repeat split; eauto.
Qed.

Lemma store_bad_int (a : Args) (d : Dest) (s : string) (w : World) :
  int_dest d = true -> py_int s = None ->
  exists msg, store a d s w = (Raise (SystemExit (ExitCode 2)),
                               snd (eprint msg w)).
Proof.
  intros Hd Hs. destruct d; try discriminate;
    unfold store, parser_error, bind, sys_exit, raise; rewrite Hs; simpl;
    eexists; reflexivity.
Qed.

Lemma parse_args_ok_state (cl : cmdline) :
  forall (a a' : Args) (w w' : World),
    parse_args a cl w = (Ok a', w') -> w' = w.
Proof.
  induction cl as [|[d s] rest IH]; intros a a' w w' H.
  - injection H as _ <-. reflexivity.
  - simpl in H. unfold bind in H.
    destruct (store a d s w) as [[a1|e] w1] eqn:Hstore; [|discriminate].
    apply store_ok_state in Hstore. subst w1. eauto.
Qed.

Lemma parse_args_raises (cl : cmdline) :
  forall (a : Args) (w w' : World) (e : exn),
    parse_args a cl w = (Raise e, w') ->
    e = SystemExit (ExitCode 2)
    /\ (exists d s, In (d, s) cl /\ int_dest d = true /\ py_int s = None)
    /\ exists msg, w' = snd (eprint msg w).
Proof.
  induction cl as [|[d s] rest IH]; intros a w w' e H.
  - discriminate.
  - simpl in H. unfold bind in H.
    destruct (store a d s w) as [[a1|e1] w1] eqn:Hstore.
    + apply store_ok_state in Hstore as Hw. subst w1.
      destruct (IH _ _ _ _ H) as (He & (d' & s' & Hin & Hd & Hs) & Hmsg).
      split; [exact He|]. split; [|exact Hmsg].
      exists d', s'. split; [right; exact Hin|auto].
    + injection H as <- <-.
      destruct (store_raises _ _ _ _ _ _ Hstore) as (Hd & Hs & He & Hmsg).
      split; [exact He|]. split; [|exact Hmsg].
      exists d, s. split; [left; reflexivity|auto].
Qed.

Lemma parse_args_bad_int (cl : cmdline) :
  forall (a : Args) (w : World),
    (exists d s, In (d, s) cl /\ int_dest d = true /\ py_int s = None) ->
    exists msg,
      parse_args a cl w = (Raise (SystemExit (ExitCode 2)),
                           snd (eprint msg w)).
Proof.
  induction cl as [|[d s] rest IH]; intros a w (d' & s' & Hin & Hd & Hs).
  - destruct Hin.
  - simpl. unfold bind.
    destruct (store a d s w) as [[a1|e1] w1] eqn:Hstore.
    + apply store_ok_state in Hstore as Hw. subst w1.
      destruct Hin as [Heq|Hin].
      * injection Heq as -> ->.
        destruct (store_bad_int a d' s' w Hd Hs) as [msg Hmsg]. congruence.
      * apply IH. eauto.
    + destruct (store_raises _ _ _ _ _ _ Hstore) as (_ & _ & -> & msg & ->).
      eexists; reflexivity.
Qed.

(** On a command line made of the seven options with their values (no
    [-h], no unknown option): if the text given for any occurrence of
    [--batch_size] or [--max_gpu_memory] is not an int, also one that a
    later occurrence would override, the process ends with status 2 after
    one message on standard error: no collaborator is called, nothing is
    printed on standard output and no file or directory changes. *)
Theorem invalid_int_option_exits_2 (cl : cmdline) (w : World) :
  (exists d s, In (d, s) cl /\ int_dest d = true /\ py_int s = None) ->
  let out := run_process (main cl) w in
  fst out = 2
  /\ files (snd out) = files w
  /\ dirs (snd out) = dirs w
  /\ calls (snd out) = calls w
  /\ stdout (snd out) = stdout w
  /\ exists msg, stderr (snd out) = (stderr w ++ [msg])%list.
Proof.
  intros Hbad out. subst out.
  destruct (parse_args_bad_int cl default_args w Hbad) as [msg Hmsg].
  unfold run_process, main, get_args, bind. rewrite Hmsg. simpl.
  repeat split; try reflexivity. eexists; reflexivity.
Qed.

Lemma parse_args_typed (cl : cmdline) :
  forall (a a' : Args) (w w' : World),
    parse_args a cl w = (Ok a', w') ->
    model_path a' = default (model_path a) (last_supplied dest_model_path cl)
    /\ save_path a' = default (save_path a) (last_supplied dest_save_path cl)
    /\ onnx_trt a' = default (onnx_trt a) (last_supplied dest_onnx_trt cl)
    /\ match last_supplied dest_batch_size cl with
       | Some s => py_int s = Some (batch_size a')
       | None => batch_size a' = batch_size a
       end
    /\ match last_supplied dest_max_gpu_memory cl with
       | Some s => py_int s = Some (max_gpu_memory a')
       | None => max_gpu_memory a' = max_gpu_memory a
       end.
Proof.
  induction cl as [|[d s] rest IH]; intros a a' w w' Hrun.
  - injection Hrun as <- _. repeat split; reflexivity.
  - simpl in Hrun. unfold bind in Hrun.
    destruct (store a d s w) as [[a1|e] w1] eqn:Hstore; [|discriminate].
    destruct (IH _ _ _ _ Hrun) as (H1 & H2 & H3 & H4 & H5).
    clear IH Hrun. simpl.
    destruct (last_supplied dest_model_path rest),
      (last_supplied dest_save_path rest),
      (last_supplied dest_onnx_trt rest),
      (last_supplied dest_batch_size rest),
      (last_supplied dest_max_gpu_memory rest);
      destruct d; simpl in *; unfold ret, parser_error, bind in Hstore;
      simpl in Hstore;
      try (destruct (py_int s) eqn:Hint; [|discriminate Hstore]);
      injection Hstore as <- _; simpl in *;
      repeat split; congruence.
Qed.

(** When argument parsing succeeds it has changed nothing and printed
    nothing, and every typed option holds the last text given for it (for
    the int options, its conversion by [int]) or else its default. *)
Theorem get_args_values (cl : cmdline) (w w' : World) (a : Args) :
  get_args cl w = (Ok a, w') ->
  w' = w
  /\ model_path a =
     default "runwayml/stable-diffusion-v1-5"
       (last_supplied dest_model_path cl)
  /\ save_path a = default "unet.engine" (last_supplied dest_save_path cl)
  /\ onnx_trt a = default "onnx" (last_supplied dest_onnx_trt cl)
  /\ match last_supplied dest_batch_size cl with
     | Some s => py_int s = Some (batch_size a)
     | None => batch_size a = 1
     end
  /\ match last_supplied dest_max_gpu_memory cl with
     | Some s => py_int s = Some (max_gpu_memory a)
     | None => max_gpu_memory a = 15
     end.
Proof.
  intros Hrun. split; [exact (parse_args_ok_state _ _ _ _ _ Hrun)|].
  exact (parse_args_typed _ _ _ _ _ Hrun).
Qed.

(** *** How a run can end *)

Lemma py_getitem_exn (v : PyVal) (i : nat) (e : exn) :
  py_getitem v i = Raise e -> e = TypeError \/ e = IndexError.
Proof.
  destruct v as [z|s|l]; simpl.
  - intros H; injection H as <-; auto.
  - destruct (nth_error (py_chars s) i); intros H; try discriminate;
      injection H as <-; auto.
  - destruct (nth_error l i); intros H; try discriminate;
      injection H as <-; auto.
Qed.

Lemma py_floordiv_8_exn (v : PyVal) (e : exn) :
  py_floordiv v (PyInt 8) = Raise e -> e = TypeError.
Proof.
  destruct v; simpl; intros H; try discriminate; injection H as <-;
    reflexivity.
Qed.

Lemma sample_hw_exn (a : Args) (e : exn) :
  sample_hw a = Raise e -> e = TypeError \/ e = IndexError.
Proof.
  unfold sample_hw.
  destruct (py_getitem (img_size a) 0) as [i0|e0] eqn:H0;
    [|intros H; injection H as <-; eapply py_getitem_exn; eassumption].
  destruct (py_getitem (img_size a) 1) as [i1|e1] eqn:H1;
    [|intros H; injection H as <-; eapply py_getitem_exn; eassumption].
  destruct (py_floordiv i0 (PyInt 8)) as [h|e2] eqn:H2;
    [|intros H; injection H as <-; left; eapply py_floordiv_8_exn;
      eassumption].
  destruct (py_floordiv i1 (PyInt 8)) as [wd|e3] eqn:H3;
    [discriminate|intros H; injection H as <-; left;
      eapply py_floordiv_8_exn; eassumption].
Qed.

Lemma trt_shapes_exn (a : Args) (e : exn) :
  trt_shapes a = Raise e -> e = TypeError \/ e = IndexError.
Proof.
  unfold trt_shapes.
  destruct (py_getitem (img_size a) 0) as [i0|e0] eqn:H0;
    [|intros H; injection H as <-; eapply py_getitem_exn; eassumption].
  destruct (py_floordiv i0 (PyInt 8)) as [h|e2] eqn:H2;
    [|intros H; injection H as <-; left; eapply py_floordiv_8_exn;
      eassumption].
  destruct (py_getitem (img_size a) 1) as [i1|e1] eqn:H1;
    [|intros H; injection H as <-; eapply py_getitem_exn; eassumption].
  destruct (py_floordiv i1 (PyInt 8)) as [wd|e3] eqn:H3;
    [discriminate|intros H; injection H as <-; left;
      eapply py_floordiv_8_exn; eassumption].
Qed.

Lemma torch_rand_exn size device w e w' :
  torch_rand size device w = (Raise e, w') ->
  e = TypeError \/ e = RuntimeError.
Proof.
  unfold torch_rand, raise. destruct (as_ints size) as [dims|].
  - destruct (forallb (Z.leb 0) dims); intros H; try discriminate;
      injection H as <- _; auto.
  - intros H; injection H as <- _; auto.
Qed.

Lemma check_inputs_exn args h wd device w e w' :
  check_inputs args h wd device w = (Raise e, w') ->
  e = TypeError \/ e = RuntimeError.
Proof.
  unfold check_inputs, bind, ret.
  repeat match goal with
    | |- context [torch_rand ?s ?d ?x] =>
        let H := fresh "Hrand" in
        destruct (torch_rand s d x) as [[?|?] ?] eqn:H;
        [|apply torch_rand_exn in H]
    end;
    intros H; try discriminate; injection H as <- _; assumption.
Qed.

Lemma exporter_exn (args : Args) (w : World) (e : exn) :
  fst (convert_to_onnx args w) = Raise e -> forall a, e <> SystemExit a.
Proof.
  exec_onnx; intros H a; try discriminate H; injection H as <-;
    try discriminate.
  all: match goal with
       | H : sample_hw _ = Raise _ |- _ =>
           destruct (sample_hw_exn _ _ H) as [-> | ->]; discriminate
       | H : check_inputs _ _ _ _ _ = (Raise _, _) |- _ =>
           destruct (check_inputs_exn _ _ _ _ _ _ _ H) as [-> | ->];
           discriminate
       end.
Qed.

Lemma compiler_exn (args : Args) (w : World) (a : exit_arg) :
  fst (convert_to_trt args w) = Raise (SystemExit a) ->
  a = ExitMsg parse_failed_message.
Proof.
  exec_trt; intros H; try discriminate H.
  all: try (injection H as <-; reflexivity).
  all: match goal with
       | H0 : trt_shapes _ = Raise _ |- _ =>
           destruct (trt_shapes_exn _ _ H0) as [-> | ->]; discriminate
       end.
Qed.

Lemma main_body_exn (args : Args) (w : World) (e : exn) :
  fst (main_body args w) = Raise e -> forall n, e <> SystemExit (ExitCode n).
Proof.
  unfold main_body, stdout_flush, bind, ret.
  intros H n ->.
  destruct (String.eqb (onnx_trt args) "onnx").
  - destruct (convert_to_onnx args w) as [[[]|e1] w1] eqn:Honnx.
    + destruct (String.eqb (onnx_trt args) "trt"); [|discriminate].
      apply compiler_exn in H. discriminate.
    + simpl in H. injection H as ->.
      eapply (exporter_exn args w); [rewrite Honnx|]; reflexivity.
  - destruct (String.eqb (onnx_trt args) "trt"); [|discriminate].
    apply compiler_exn in H. discriminate.
Qed.

(** On a command line made of the seven options with their values (no
    [-h], no unknown option), the exit status of the program is 0, 1 or 2:
    it is 0 exactly when the program runs to its end, and 2 exactly when
    argument parsing fails; every failure of either pipeline, the refused
    graph file included, is status 1. *)
Theorem exit_status_cases (cl : cmdline) (w : World) :
  let status := fst (run_process (main cl) w) in
  (status = 0 \/ status = 1 \/ status = 2)
  /\ (status = 0 <-> fst (main cl w) = Ok tt)
  /\ (status = 2 <-> exists e, fst (get_args cl w) = Raise e).
Proof.
  intros status. subst status. unfold run_process.
  assert (Hmain : main cl w = bind (get_args cl) main_body w) by reflexivity.
  unfold bind in Hmain.
  destruct (get_args cl w) as [[a|e] w1] eqn:Hargs.
  - pose proof (main_body_exn a w1) as Hexn.
    rewrite Hmain. destruct (main_body a w1) as [[[]|e] w2]; simpl in *.
    + repeat split; auto; try discriminate. intros [e He]; discriminate.
    + assert (Hne : forall n, e <> SystemExit (ExitCode n)) by eauto.
      destruct e as [[msg|n]| | | | | |]; simpl;
        try (exfalso; eapply Hne; reflexivity);
        (split; [auto|]); (split; split; try discriminate);
        intros [e He]; discriminate.
  - unfold get_args in Hargs.
    destruct (parse_args_raises _ _ _ _ _ Hargs) as (-> & _ & _).
    rewrite Hmain. simpl.
    repeat split; auto; try discriminate. eexists; reflexivity.
Qed.

(** *** Failures of the exporter *)

(** When the model cannot be loaded the exporter stops there: nothing has
    been created or written, and only the device query and the load itself
    have been called. *)
Theorem missing_model_fails_fast (args : Args) (w : World) :
  from_pretrained (model_path args) "unet" true = None ->
  let out := convert_to_onnx args w in
  fst out = Raise (LibraryError "diffusers")
  /\ files (snd out) = files w
  /\ dirs (snd out) = dirs w
  /\ new_calls w (snd out) =
     [call_cuda_is_available;
      call_from_pretrained (model_path args) "unet" true].
Proof.
  intros Hnone out. subst out.
  exec_onnx; try congruence. repeat split; reflexivity.
Qed.

(** An image size the shape computation cannot use is found out late: the
    model is loaded and moved to the device and the directory unet is made
    before lines 59-61 raise, so the run fails with that exception, having
    written no file, leaving unet behind and never reaching the trace. *)
Theorem exporter_shape_error_is_late (args : Args) (w : World) (e : exn)
    (u u' : UNet) :
  sample_hw args = Raise e ->
  from_pretrained (model_path args) "unet" true = Some u ->
  module_to u (if cuda_is_available then "cuda" else "cpu") = Some u' ->
  os_makedirs_ok (files w) (dirs w) "unet" = true ->
  let out := convert_to_onnx args w in
  fst out = Raise e
  /\ files (snd out) = files w
  /\ present (snd out) "unet"
  /\ In (call_from_pretrained (model_path args) "unet" true)
        (new_calls w (snd out))
  /\ forall ex chk strict,
       ~ In (call_jit_trace ex chk strict) (new_calls w (snd out)).
Proof.
  intros Hhw Hload Hto Hmk out. subst out.
  exec_onnx; try congruence.
  - split; [congruence|]. split; [reflexivity|].
    split; [apply present_unet_bool; assumption|]. split; [tauto|].
    intros ex chk strict H. in_cases H.
  - split; [congruence|]. split; [reflexivity|].
    split; [left; simpl; set_solver|]. split; [tauto|].
    intros ex chk strict H. in_cases H.
Qed.

(** The directory unet is made only when nothing of that name exists: if
    something does, [os.makedirs] is never called and no directory changes;
    if nothing does and the model loads, [os.makedirs] is called, and the
    run either gains the directory or fails with the [OSError]. *)
Theorem makedirs_only_when_absent (args : Args) (w : World) :
  let out := convert_to_onnx args w in
  (present w "unet" ->
   (forall p, ~ In (call_makedirs p) (new_calls w (snd out)))
   /\ dirs (snd out) = dirs w)
  /\ (~ present w "unet" ->
      forall u u',
        from_pretrained (model_path args) "unet" true = Some u ->
        module_to u (if cuda_is_available then "cuda" else "cpu") = Some u' ->
        In (call_makedirs "unet") (new_calls w (snd out))
        /\ (os_makedirs_ok (files w) (dirs w) "unet" = true ->
            dirs (snd out) = {["unet"]} ∪ dirs w)
        /\ (os_makedirs_ok (files w) (dirs w) "unet" = false ->
            fst out = Raise OSError /\ dirs (snd out) = dirs w)).
Proof.
  intros out. subst out. split.
  - intros Hp. apply present_unet_bool in Hp.
    exec_onnx; try congruence.
    all: split; [intros path Hin; in_cases Hin | reflexivity].
  - intros Hp u u' Hload Hto.
    assert (Hb : bool_decide ("unet" ∈ dirs w)
                 || bool_decide (is_Some (files w !! "unet")) = false).
    { destruct (_ || _) eqn:Hb; [|reflexivity].
      apply present_unet_bool in Hb. contradiction. }
    exec_onnx; try congruence.
    all: split; [tauto|]; split; intros; try congruence; auto.
Qed.

(** The device cache is emptied and the garbage collector run only at the
    very end of a successful export: after any failure neither has been
    called. *)
Theorem cleanup_only_on_success (args : Args) (w : World) :
  let out := convert_to_onnx args w in
  (In call_empty_cache (new_calls w (snd out)) <-> fst out = Ok tt)
  /\ (In call_gc_collect (new_calls w (snd out)) <-> fst out = Ok tt).
Proof.
  intros out. subst out.
  exec_onnx.
  all: split; split; intros H; try reflexivity; try discriminate H;
    try (in_cases H); simpl; tauto.
Qed.

(** *** Failures of the compiler *)

(** A configuration whose shapes cannot be computed is found out only
    after the graph file has been parsed: when parsing succeeds and lines
    123-130 raise, the run fails with that exception after the parse and
    after printing the recorded parse errors; no shape has been bound, no
    profile added, the build step has not run, the save path has not been
    opened and no file has changed. *)
Theorem compiler_shape_error_after_parse (args : Args) (w : World)
    (e : exn) (errors : list string) (network : INetworkDefinition) :
  parse (create_network (Z.shiftl 1 EXPLICIT_BATCH))
    (files w !! "unet/model.onnx") = (true, errors, network) ->
  trt_shapes args = Raise e ->
  let out := convert_to_trt args w in
  fst out = Raise e
  /\ files (snd out) = files w
  /\ stdout (snd out) = (stdout w ++ errors)%list
  /\ In (call_parse_from_file "./unet/model.onnx") (new_calls w (snd out))
  /\ (forall input mn op mx,
        ~ In (call_set_shape input mn op mx) (new_calls w (snd out)))
  /\ (forall profile,
        ~ In (call_add_optimization_profile profile)
             (new_calls w (snd out)))
  /\ (forall cfg,
        ~ In (call_build_serialized_network cfg) (new_calls w (snd out)))
  /\ (forall p, ~ In (call_open_wb p) (new_calls w (snd out))).
Proof.
  intros Hparse Hsh out. subst out.
  unfold convert_to_trt, parse_from_file, lift, bind, invoke.
  simpl. rewrite Hparse. simpl. rewrite print_errors_spec. simpl.
  rewrite Hsh. simpl. rewrite <- app_assoc. simpl.
  rewrite new_calls_app.
  do 3 (split; [reflexivity|]). split; [simpl; tauto|].
  repeat split; intros; intros H; in_cases H.
Qed.

End Properties.

(** ** Runs on concrete inputs *)

Import Demo.

(** The compiler on a working directory whose graph file is empty. *)
Lemma parse_failure_exits_witness :
  parse (create_network (Z.shiftl 1 EXPLICIT_BATCH))
    (files corrupt_world !! "unet/model.onnx")
  = (false, ["Failed to parse the ONNX model"], @nil string)
  /\ fst (run_process (convert_to_trt default_args) corrupt_world) = 1
  /\ stdout (snd (run_process (convert_to_trt default_args) corrupt_world))
     = ["Failed to parse the ONNX model"]
  /\ stderr (snd (run_process (convert_to_trt default_args) corrupt_world))
     = ["ONNX model parsing failed"]
  /\ files (snd (run_process (convert_to_trt default_args) corrupt_world))
     = files corrupt_world.
Proof.
  split; [reflexivity|].
  destruct (parse_failure_exits (L := libs) default_args corrupt_world
              ["Failed to parse the ONNX model"] (@nil string) eq_refl)
    as (_ & H1 & H2 & H3 & _ & H5 & _).
  repeat split; assumption.
Defined.

(** Mode "check" runs nothing. *)
Lemma mode_dispatch_witness :
  onnx_trt (with_mode "check" default_args) <> "onnx"
  /\ onnx_trt (with_mode "check" default_args) <> "trt"
  /\ run_process (main_body (with_mode "check" default_args)) exported_world
     = (0, exported_world).
Proof.
  split; [discriminate|]. split; [discriminate|].
  apply (mode_dispatch (with_mode "check" default_args) exported_world);
    discriminate.
Defined.

(** The default configuration on an exported graph reaches the build. *)
Lemma one_static_profile_witness :
  In (call_build_serialized_network (default_config 15))
     (new_calls exported_world
        (snd (convert_to_trt default_args exported_world)))
  /\ exists l e t ls es ts,
       cfg_profiles (default_config 15) =
         [[static_binding "latent_model_input" l;
           static_binding "encoder_hidden_states" e;
           static_binding "t" t]]
       /\ trt_shapes default_args = Ok (ls, es, ts)
       /\ as_ints ls = Some l /\ as_ints es = Some e /\ as_ints ts = Some t.
Proof.
  assert (H : In (call_build_serialized_network (default_config 15))
                (new_calls exported_world
                   (snd (convert_to_trt default_args exported_world)))).
  { vm_compute. do 8 right. left. reflexivity. }
  split; [exact H|].
  exact (one_static_profile default_args exported_world (default_config 15) H).
Defined.

(** An image of 513 by 515 is handled as one of 512 by 512. *)
Lemma floor_division_truncates_witness :
  513 mod 8 <> 0
  /\ 8 * (513 / 8) < 513
  /\ sample_hw (with_img_size (PyTuple [PyInt 513; PyInt 515]) default_args)
     = Ok (PyInt 64, PyInt 64).
Proof.
  assert (H : 513 mod 8 <> 0) by discriminate.
  destruct (floor_division_truncates "runwayml/stable-diffusion-v1-5"
              "unet.engine" "onnx" 1 513 515 15 (PyInt 77) empty_world)
    as (H1 & _ & _ & _ & H5 & _).
  split; [exact H|]. split; [exact (H5 H)|]. exact H1.
Defined.

(** The exporter with the default configuration in an empty directory. *)
Lemma reduced_precision_keeps_io_types_witness :
  (forall m m', convert_float_to_float16 m true = Some m' ->
                io_types m' = io_types m)
  /\ convert_to_onnx default_args empty_world
     = (Ok tt, snd (convert_to_onnx default_args empty_world))
  /\ exists m m',
       files (snd (convert_to_onnx default_args empty_world))
         !! "unet/model.onnx" = Some (OnnxFile m)
       /\ files (snd (convert_to_onnx default_args empty_world))
            !! "unet/model_fp16.onnx" = Some (OnnxFile m')
       /\ io_types m' = io_types m.
Proof.
  assert (Hlib : forall m m', convert_float_to_float16 m true = Some m' ->
                              io_types m' = io_types m).
  { intros m m' H. injection H as <-. reflexivity. }
  assert (Hrun : convert_to_onnx default_args empty_world
                 = (Ok tt, snd (convert_to_onnx default_args empty_world))).
  { vm_compute. reflexivity. }
  split; [exact Hlib|]. split; [exact Hrun|].
  destruct (reduced_precision_keeps_io_types default_args empty_world _
              Hlib Hrun) as (m & m' & H1 & H2 & _ & H4 & _).
  exists m, m'. repeat split; assumption.
Defined.

(** A successful export in an empty directory, and a successful compile
    of an exported graph. *)
Lemma fixed_paths_witness :
  fst (convert_to_onnx default_args empty_world) = Ok tt
  /\ ~ present empty_world "unet"
  /\ fst (convert_to_trt default_args exported_world) = Ok tt
  /\ In (call_makedirs "unet")
        (new_calls empty_world
           (snd (convert_to_onnx default_args empty_world)))
  /\ "unet" ∈ dirs (snd (convert_to_onnx default_args empty_world))
  /\ (exists m,
        files (snd (convert_to_onnx default_args empty_world))
          !! "unet/model.onnx" = Some (OnnxFile m))
  /\ (exists b,
        files (snd (convert_to_trt default_args exported_world))
          !! normpath (save_path default_args) = Some (BinFile b)).
Proof.
  assert (He : fst (convert_to_onnx default_args empty_world) = Ok tt)
    by (vm_compute; reflexivity).
  assert (Hc : fst (convert_to_trt default_args exported_world) = Ok tt)
    by (vm_compute; reflexivity).
  assert (Hn : ~ present empty_world "unet").
  { intros [H|H]; simpl in H.
    - apply not_elem_of_empty in H. exact H.
    - rewrite lookup_empty in H. destruct H as [x H]. discriminate H. }
  destruct (fixed_paths default_args empty_world)
    as (_ & _ & Hexp & _).
  destruct (fixed_paths default_args exported_world)
    as (_ & _ & _ & _ & _ & _ & _ & _ & _ & _ & Hcomp).
  destruct (Hexp He) as (ex & tr & m & m' & _ & _ & _ & _ & _ & Hm & _ & _
                         & Hmk).
  destruct (Hmk Hn) as [Hcall Hdir].
  destruct (Hcomp Hc) as (cfg & b & _ & _ & _ & _ & Hb).
  split; [exact He|]. split; [exact Hn|]. split; [exact Hc|].
  split; [exact Hcall|]. split; [exact Hdir|].
  split; [exists m; exact Hm | exists b; exact Hb].
Defined.

(** The sample inputs of the default configuration. *)
Lemma exporter_ignores_batch_size_witness :
  (exists ex chk w',
      check_inputs default_args (PyInt 64) (PyInt 64) "cpu" empty_world
      = (Ok (ex, chk), w')
      /\ map t_shape ex !! 0%nat = Some [2; 4; 64; 64]
      /\ exists r, map t_shape ex !! 0%nat = Some (2 :: r))
  /\ convert_to_onnx (with_batch_size 1 default_args) empty_world
     = convert_to_onnx (with_batch_size 4 default_args) empty_world.
Proof.
  destruct (exporter_ignores_batch_size "runwayml/stable-diffusion-v1-5"
              "unet.engine" "onnx" 1 4 15
              (PyTuple [PyInt 512; PyInt 512]) (PyInt 77) empty_world)
    as [Hsame Hbatch].
  split; [|exact Hsame].
  eexists _, _, _.
  assert (Hci : check_inputs default_args (PyInt 64) (PyInt 64) "cpu"
                  empty_world = (Ok (_, _), _)) by (vm_compute; reflexivity).
  split; [exact Hci|]. split; [reflexivity|].
  exact (proj1 (Hbatch _ _ _ _ _ _ _ Hci)).
Defined.

(** A build that fails for lack of workspace memory. *)
Lemma failed_build_leaves_empty_file_witness :
  In (call_build_serialized_network (default_config 0))
     (new_calls exported_world
        (snd (convert_to_trt starved_args exported_world)))
  /\ build_serialized_network
       (snd (parse (create_network (Z.shiftl 1 EXPLICIT_BATCH))
               (files exported_world !! "unet/model.onnx")))
       (default_config 0) = None
  /\ os_open_wb_ok (files exported_world) (dirs exported_world)
       (save_path starved_args) = true
  /\ fst (convert_to_trt starved_args exported_world) = Raise TypeError
  /\ fst (run_process (convert_to_trt starved_args) exported_world) = 1
  /\ files (snd (convert_to_trt starved_args exported_world))
     = <["unet.engine" := BinFile []]> (files exported_world).
Proof.
  assert (H : In (call_build_serialized_network (default_config 0))
                (new_calls exported_world
                   (snd (convert_to_trt starved_args exported_world)))).
  { vm_compute. do 8 right. left. reflexivity. }
  assert (Hnone : build_serialized_network
                    (snd (parse (create_network (Z.shiftl 1 EXPLICIT_BATCH))
                            (files exported_world !! "unet/model.onnx")))
                    (default_config 0) = None) by reflexivity.
  assert (Hopen : os_open_wb_ok (files exported_world) (dirs exported_world)
                    (save_path starved_args) = true) by reflexivity.
  destruct (failed_build_leaves_empty_file starved_args exported_world
              (default_config 0) H Hnone Hopen) as (H1 & H2 & H3 & _).
  repeat split; assumption.
Defined.

(** An image size given on the command line as the text 512,512, and one
    given as a single character of two bytes. *)
Lemma untyped_flags_stay_strings_witness :
  get_args [(dest_img_size, "512,512")] empty_world
  = (Ok (img_size_given "512,512"), empty_world)
  /\ img_size (img_size_given "512,512") = PyStr "512,512"
  /\ py_getitem (img_size (img_size_given "512,512")) 0 = Ok (PyStr "5")
  /\ sample_hw (img_size_given "512,512") = Raise TypeError
  /\ trt_shapes (img_size_given "512,512") = Raise TypeError
  /\ get_args [(dest_img_size, "λ")] empty_world
     = (Ok (img_size_given "λ"), empty_world)
  /\ String.length "λ" = 2%nat
  /\ py_len "λ" = 1%nat
  /\ py_getitem (img_size (img_size_given "λ")) 0 = Ok (PyStr "λ")
  /\ sample_hw (img_size_given "λ") = Raise IndexError
  /\ trt_shapes (img_size_given "λ") = Raise TypeError.
Proof.
  assert (Hrun : get_args [(dest_img_size, "512,512")] empty_world
                 = (Ok (img_size_given "512,512"), empty_world))
    by reflexivity.
  assert (Hrun' : get_args [(dest_img_size, "λ")] empty_world
                  = (Ok (img_size_given "λ"), empty_world))
    by reflexivity.
  destruct (untyped_flags_stay_strings _ _ _ _ Hrun)
    as (Hi & _ & Hstr & _).
  destruct (Hstr "512,512" eq_refl) as (H0 & _ & _ & Hs & Ht).
  destruct (untyped_flags_stay_strings _ _ _ _ Hrun')
    as (_ & _ & Hstr' & _).
  destruct (Hstr' "λ" eq_refl) as (H0' & _ & _ & Hs' & Ht').
  split; [exact Hrun|]. split; [exact Hi|]. split; [exact H0|].
  split; [exact Hs|]. split; [exact Ht|]. split; [exact Hrun'|].
  split; [reflexivity|]. split; [reflexivity|]. split; [exact H0'|].
  split; [exact Hs' | exact Ht'].
Defined.

(** C10 as stated fails for an image size given as the empty text (as in
    [--img_size ""]): it is stored as the [str] [""], [args.img_size[0]] is
    not a character but an [IndexError], and neither shape computation gets
    as far as [// 8], so neither ends in a [TypeError].  For a text of one
    character the exporter stops at [args.img_size[1]], an [IndexError]
    again. *)
Lemma empty_img_size_counterexample :
  get_args [(dest_img_size, "")] empty_world
  = (Ok (img_size_given ""), empty_world)
  /\ img_size (img_size_given "") = PyStr ""
  /\ py_getitem (img_size (img_size_given "")) 0 = Raise IndexError
  /\ (forall c,
        py_getitem (img_size (img_size_given "")) 0
        <> Ok (PyStr (String c EmptyString)))
  /\ sample_hw (img_size_given "") = Raise IndexError
  /\ sample_hw (img_size_given "") <> Raise TypeError
  /\ trt_shapes (img_size_given "") = Raise IndexError
  /\ trt_shapes (img_size_given "") <> Raise TypeError
  /\ get_args [(dest_img_size, "5")] empty_world
     = (Ok (img_size_given "5"), empty_world)
  /\ sample_hw (img_size_given "5") = Raise IndexError.
Proof.
  repeat split; try reflexivity; try discriminate.
Qed.

(** The default configuration and an image size given as text agree. *)
Lemma shapes_agree_witness :
  sample_hw default_args = Ok (PyInt 64, PyInt 64)
  /\ trt_shapes default_args =
     Ok ([PyInt 2; PyInt 4; PyInt 64; PyInt 64],
         [PyInt 2; PyInt 77; PyInt 768], [PyInt 1]).
Proof.
  assert (H : sample_hw default_args = Ok (PyInt 64, PyInt 64))
    by reflexivity.
  split; [exact H|].
  exact (proj1 (shapes_agree default_args (PyInt 64) (PyInt 64)) H).
Defined.

(** Fifteen gigabytes are 16106127360 bytes. *)
Lemma workspace_limit_in_bytes_witness :
  In (call_build_serialized_network (default_config 15))
     (new_calls exported_world
        (snd (convert_to_trt default_args exported_world)))
  /\ cfg_pool_limits (default_config 15) = [(WORKSPACE, 15 * 2 ^ 30)]
  /\ cfg_flags (default_config 15) = [FP16].
Proof.
  assert (H : In (call_build_serialized_network (default_config 15))
                (new_calls exported_world
                   (snd (convert_to_trt default_args exported_world)))).
  { vm_compute. do 8 right. left. reflexivity. }
  split; [exact H|].
  exact (workspace_limit_in_bytes default_args exported_world
           (default_config 15) H).
Defined.

(** The first call of the exporter and the first call of the compiler. *)
Lemma pipelines_use_disjoint_libraries_witness :
  In call_cuda_is_available
     (new_calls empty_world (snd (convert_to_onnx default_args empty_world)))
  /\ library_of call_cuda_is_available <> lib_tensorrt
  /\ In (call_create_network 1)
        (new_calls exported_world
           (snd (convert_to_trt default_args exported_world)))
  /\ library_of (call_create_network 1) <> lib_torch.
Proof.
  assert (H1 : In call_cuda_is_available
                 (new_calls empty_world
                    (snd (convert_to_onnx default_args empty_world)))).
  { vm_compute. left. reflexivity. }
  assert (H2 : In (call_create_network 1)
                 (new_calls exported_world
                    (snd (convert_to_trt default_args exported_world)))).
  { vm_compute. left. reflexivity. }
  destruct (pipelines_use_disjoint_libraries default_args empty_world)
    as (Ho & _).
  destruct (pipelines_use_disjoint_libraries default_args exported_world)
    as (_ & Ht).
  split; [exact H1|]. split; [exact (proj1 (Ho _ H1))|].
  split; [exact H2 | exact (proj1 (Ht _ H2))].
Defined.

(** A batch size given as the text two, overridden by 4. *)
Lemma invalid_int_option_exits_2_witness :
  (exists d s,
      In (d, s) [(dest_batch_size, "two"); (dest_batch_size, "4")]
      /\ int_dest d = true /\ py_int s = None)
  /\ fst (run_process
            (main [(dest_batch_size, "two"); (dest_batch_size, "4")])
            exported_world) = 2
  /\ calls (snd (run_process
                   (main [(dest_batch_size, "two"); (dest_batch_size, "4")])
                   exported_world)) = [].
Proof.
  assert (H : exists d s,
             In (d, s) [(dest_batch_size, "two"); (dest_batch_size, "4")]
             /\ int_dest d = true /\ py_int s = None).
  { exists dest_batch_size, "two". split; [left; reflexivity|].
    split; reflexivity. }
  destruct (invalid_int_option_exits_2 _ exported_world H)
    as (H1 & _ & _ & H4 & _).
  split; [exact H|]. split; [exact H1 | exact H4].
Defined.

(** A command line that gives the batch size twice and the mode once. *)
Lemma get_args_values_witness :
  get_args [(dest_batch_size, "2"); (dest_onnx_trt, "trt");
            (dest_batch_size, "4")] empty_world
  = (Ok (with_batch_size 4 (with_mode "trt" default_args)), empty_world)
  /\ py_int "4" = Some (batch_size (with_batch_size 4
                                      (with_mode "trt" default_args)))
  /\ onnx_trt (with_batch_size 4 (with_mode "trt" default_args)) = "trt".
Proof.
  assert (H : get_args [(dest_batch_size, "2"); (dest_onnx_trt, "trt");
                        (dest_batch_size, "4")] empty_world
              = (Ok (with_batch_size 4 (with_mode "trt" default_args)),
                 empty_world)) by reflexivity.
  destruct (get_args_values _ _ _ _ H) as (_ & _ & _ & H3 & H4 & _).
  split; [exact H|]. split; [exact H4 | exact H3].
Defined.

(** Mode check ends with status 0. *)
Lemma exit_status_cases_witness :
  fst (main [(dest_onnx_trt, "check")] exported_world) = Ok tt
  /\ fst (run_process (main [(dest_onnx_trt, "check")]) exported_world) = 0.
Proof.
  assert (H : fst (main [(dest_onnx_trt, "check")] exported_world) = Ok tt)
    by reflexivity.
  destruct (exit_status_cases [(dest_onnx_trt, "check")] exported_world)
    as (_ & H0 & _).
  split; [exact H | exact (proj2 H0 H)].
Defined.

(** The exporter without access to the model repository. *)
Lemma missing_model_fails_fast_witness :
  from_pretrained (Libs := offline_libs) (model_path default_args) "unet" true
  = None
  /\ fst (convert_to_onnx (L := offline_libs) default_args empty_world)
     = Raise (LibraryError "diffusers")
  /\ dirs (snd (convert_to_onnx (L := offline_libs) default_args
                  empty_world)) = dirs empty_world.
Proof.
  assert (H : from_pretrained (Libs := offline_libs)
                (model_path default_args) "unet" true = None)
    by reflexivity.
  destruct (missing_model_fails_fast (L := offline_libs) default_args
              empty_world H) as (H1 & _ & H3 & _).
  split; [exact H|]. split; [exact H1 | exact H3].
Defined.

(** The exporter with the image size given as the text 512,512. *)
Lemma exporter_shape_error_is_late_witness :
  sample_hw (img_size_given "512,512") = Raise TypeError
  /\ fst (convert_to_onnx (img_size_given "512,512") empty_world)
     = Raise TypeError
  /\ present (snd (convert_to_onnx (img_size_given "512,512") empty_world))
       "unet"
  /\ files (snd (convert_to_onnx (img_size_given "512,512") empty_world))
     = files empty_world.
Proof.
  assert (H : sample_hw (img_size_given "512,512") = Raise TypeError)
    by reflexivity.
  destruct (exporter_shape_error_is_late (L := libs)
              (img_size_given "512,512") empty_world TypeError
              ("runwayml/stable-diffusion-v1-5" : string)
              ("runwayml/stable-diffusion-v1-5" : string)
              H eq_refl eq_refl eq_refl)
    as (H1 & H2 & H3 & _).
  split; [exact H|]. split; [exact H1|]. split; [exact H3 | exact H2].
Defined.

(** In a directory that already has unet, [os.makedirs] is not called. *)
Lemma makedirs_only_when_absent_witness :
  present exported_world "unet"
  /\ dirs (snd (convert_to_onnx default_args exported_world))
     = dirs exported_world
  /\ ~ In (call_makedirs "unet")
         (new_calls exported_world
            (snd (convert_to_onnx default_args exported_world))).
Proof.
  assert (H : present exported_world "unet").
  { left. simpl. apply elem_of_singleton. reflexivity. }
  destruct (makedirs_only_when_absent default_args exported_world)
    as (Hp & _).
  destruct (Hp H) as (Hno & Hd).
  split; [exact H|]. split; [exact Hd | exact (Hno "unet")].
Defined.

(** A successful export ends with the two cleanup calls. *)
Lemma cleanup_only_on_success_witness :
  fst (convert_to_onnx default_args empty_world) = Ok tt
  /\ In call_empty_cache
        (new_calls empty_world
           (snd (convert_to_onnx default_args empty_world)))
  /\ In call_gc_collect
        (new_calls empty_world
           (snd (convert_to_onnx default_args empty_world))).
Proof.
  assert (H : fst (convert_to_onnx default_args empty_world) = Ok tt)
    by (vm_compute; reflexivity).
  destruct (cleanup_only_on_success default_args empty_world) as (H1 & H2).
  split; [exact H|]. split; [exact (proj2 H1 H) | exact (proj2 H2 H)].
Defined.

(** The compiler with the image size given as the text 512,512. *)
Lemma compiler_shape_error_after_parse_witness :
  parse (create_network (Z.shiftl 1 EXPLICIT_BATCH))
    (files exported_world !! "unet/model.onnx")
  = (true, @nil string, ["Conv"; "Attention"])
  /\ trt_shapes (img_size_given "512,512") = Raise TypeError
  /\ fst (convert_to_trt (img_size_given "512,512") exported_world)
     = Raise TypeError
  /\ files (snd (convert_to_trt (img_size_given "512,512") exported_world))
     = files exported_world.
Proof.
  assert (Hs : trt_shapes (img_size_given "512,512") = Raise TypeError)
    by reflexivity.
  destruct (compiler_shape_error_after_parse (L := libs)
              (img_size_given "512,512") exported_world TypeError
              (@nil string) ["Conv"; "Attention"] eq_refl Hs)
    as (H1 & H2 & _).
  split; [reflexivity|]. split; [exact Hs|]. split; [exact H1 | exact H2].
Defined.
